(** * go-core-config: the configuration store over viper

    A shallow embedding of [config.go] (package [config]): the [Config]
    store, its three options ([WithFilepath], [WithDefault], [WithEnv]),
    the constructor [New], the reflection loops [applyDefaults] and
    [validateRequiredFields], and the accessors.

    The package keeps its key-value tree inside a [*viper.Viper] and
    decodes it with mapstructure.  Both are third-party Go modules; the
    parts of them that [config.go] calls are modelled in the modules
    [GoStrings], [mapstructure] and [viper] below, after the sources of
    viper v1.19 (the version the README asks for) and of the mapstructure
    decoder it uses.  The process environment, the file
    system and the YAML/JSON codecs are gathered in a [World] record that
    every operation touching them takes as an argument.

    The [sync.RWMutex] of [Config] is not modelled: every operation here
    is a sequential call. *)

From Stdlib Require Import ZArith Ascii String List.
From stdpp Require Import base option list gmap strings pretty fin_maps.

#[local] Set Warnings "-register-all".
Local Open Scope string_scope.
Local Open Scope list_scope.

(** ** Go strings

    A Go [string] is a byte sequence; it is a Rocq [string] here.  The case
    mappings act on the ASCII letters and leave every other byte alone. *)
Module GoStrings.

Definition isUpper (c : ascii) : bool :=
  let n := nat_of_ascii c in (65 <=? n)%nat && (n <=? 90)%nat.

Definition isLower (c : ascii) : bool :=
  let n := nat_of_ascii c in (97 <=? n)%nat && (n <=? 122)%nat.

Definition toLowerByte (c : ascii) : ascii :=
  if isUpper c then ascii_of_nat (nat_of_ascii c + 32) else c.

Definition toUpperByte (c : ascii) : ascii :=
  if isLower c then ascii_of_nat (nat_of_ascii c - 32) else c.

Fixpoint mapBytes (f : ascii -> ascii) (s : string) : string :=
  match s with
  | EmptyString => EmptyString
  | String c s' => String (f c) (mapBytes f s')
  end.

(** [strings.ToLower] and [strings.ToUpper]. *)
Definition ToLower : string -> string := mapBytes toLowerByte.
Definition ToUpper : string -> string := mapBytes toUpperByte.

(** [strings.EqualFold], on ASCII. *)
Definition EqualFold (s t : string) : bool := String.eqb (ToLower s) (ToLower t).

(** [strings.Split(s, sep)] for a one-byte separator: the pieces between
    the separators, never an empty slice. *)
Fixpoint Split (sep : ascii) (s : string) : list string :=
  match s with
  | EmptyString => [EmptyString]
  | String c s' =>
      if Ascii.eqb c sep then EmptyString :: Split sep s'
      else match Split sep s' with
           | [] => [String c EmptyString]
           | w :: ws => String c w :: ws
           end
  end.

(** [strings.Join(parts, sep)]. *)
Fixpoint Join (parts : list string) (sep : string) : string :=
  match parts with
  | [] => EmptyString
  | [p] => p
  | p :: rest => p +:+ sep +:+ Join rest sep
  end.

(** [strings.ReplaceAll(s, old, new)] for one-byte [old] and [new]; also
    what a [strings.NewReplacer(old, new)] does to a string. *)
Definition ReplaceByte (old new : ascii) : string -> string :=
  mapBytes (fun c => if Ascii.eqb c old then new else c).

(** [strings.Contains(s, substr)]. *)
Fixpoint Contains (s substr : string) : bool :=
  String.prefix substr s ||
  match s with
  | EmptyString => false
  | String _ s' => Contains s' substr
  end.

(** The part of a struct tag value before its first comma. *)
Fixpoint beforeComma (s : string) : string :=
  match s with
  | EmptyString => EmptyString
  | String c s' => if Ascii.eqb c ","%char then EmptyString else String c (beforeComma s')
  end.

(** [filepath.Ext(path)]: the loop runs from the last byte towards the
    first, stops at a path separator, and returns the suffix that starts
    at the first dot it meets.  [rev] holds the bytes still to visit (last
    byte first) and [suffix] the bytes already passed. *)
Fixpoint extScan (rev : list ascii) (suffix : string) : string :=
  match rev with
  | [] => EmptyString
  | c :: rest =>
      if Ascii.eqb c "/"%char then EmptyString
      else if Ascii.eqb c "."%char then String c suffix
      else extScan rest (String c suffix)
  end.

Definition Ext (path : string) : string :=
  extScan (List.rev (list_ascii_of_string path)) EmptyString.

(** [strconv.ParseBool]: the twelve accepted spellings, an error ([None])
    for everything else. *)
Definition ParseBool (s : string) : option bool :=
  if existsb (String.eqb s) ["1"; "t"; "T"; "TRUE"; "true"; "True"] then Some true
  else if existsb (String.eqb s) ["0"; "f"; "F"; "FALSE"; "false"; "False"] then Some false
  else None.

(** [strconv.FormatBool] and [strconv.FormatInt(_, 10)]. *)
Definition FormatBool (b : bool) : string := if b then "true" else "false".
Definition FormatInt (z : Z) : string := pretty z.

End GoStrings.

(** ** Values, and the world outside the process *)

(** What a tree holds at a key: Go's [interface{}] restricted to the
    dynamic types the codecs and the callers of this package put there
    ([nil], [string], [bool], [int], [map[string]interface{}]).  Slices
    and floating-point numbers are left out. *)
Inductive Value :=
  | VNil
  | VString (s : string)
  | VBool (b : bool)
  | VInt (z : Z)
  | VMap (m : gmap string Value).

Definition isNil (x : Value) : bool :=
  match x with VNil => true | _ => false end.

(** The file system ([ReadFile]: the bytes of the file at a path, [None]
    when it is missing or unreadable), the codec registry ([Codec]: the
    tree a document of the given format parses to, [None] on a syntax error) and
    the process environment ([LookupEnv], as [os.LookupEnv]). *)
Record World := {
  ReadFile : string -> option string;
  Codec : string -> string -> option (gmap string Value);
  LookupEnv : string -> option string
}.


(** The errors viper and mapstructure hand back. *)
Inductive ViperError :=
  | UnsupportedConfigError (format : string)
  | FileReadError (filename : string)
  | ConfigParseError
  | ResultNotPointer
  | ResultNotAddressable
  | DecodeErrors (names : list string).

(** ** Go values seen through [reflect], and mapstructure *)

(** A struct field as [reflect.StructField] shows it: its name and the two
    tag values the package reads. *)
Record StructField := {
  Name : string;
  mapstructureTag : string;
  defaultTag : string
}.

(** The values [reflect] walks over: the kinds of [ConfigStruct]'s fields
    ([string], [bool], [map[string]string], whose nil map is [None]) and
    structs of such fields, nested at will.  These are also the kinds the
    targets of [Unmarshal] are built from in the package's tests. *)
Inductive GoValue :=
  | GString (s : string)
  | GBool (b : bool)
  | GMap (m : option (gmap string string))
  | GStruct (fields : list (StructField * GoValue)).

(** What a caller passes to [Unmarshal] as [target interface{}]: a value
    that is no pointer, a nil pointer, or a pointer to a value. *)
Inductive Target :=
  | NotAPointer (x : GoValue)
  | NilPointer
  | Pointer (x : GoValue).

(** [reflect.Value.IsZero]. *)
Fixpoint IsZero (x : GoValue) : bool :=
  match x with
  | GString s => String.eqb s ""
  | GBool b => negb b
  | GMap m => match m with None => true | Some _ => false end
  | GStruct fields =>
      (fix all (fs : list (StructField * GoValue)) : bool :=
         match fs with
         | [] => true
         | (_, y) :: fs' => IsZero y && all fs'
         end) fields
  end.

Module mapstructure.
Import GoStrings.

(** The key a field is looked up under: the tag up to its first comma,
    or the field's name when that is empty.  What follows the comma
    ([required] here) means nothing to the decoder. *)
Definition fieldKey (f : StructField) : string :=
  let tagValue := beforeComma (mapstructureTag f) in
  if String.eqb tagValue "" then Name f else tagValue.

(** The entry of the input map for a field: the exact key, else the first
    key equal to it up to case. *)
Definition lookupField (m : gmap string Value) (fieldName : string) : option Value :=
  match m !! fieldName with
  | Some raw => Some raw
  | None => snd <$> List.find (fun kx => EqualFold (fst kx) fieldName) (map_to_list m)
  end.

(** [decodeString], [decodeBool] with [WeaklyTypedInput] (viper turns it
    on): the decoded value, or [None] for an input of the wrong shape. *)
Definition decodeString (input : Value) : option string :=
  match input with
  | VString s => Some s
  | VBool b => Some (if b then "1" else "0")
  | VInt z => Some (FormatInt z)
  | _ => None
  end.

Definition decodeBool (input : Value) : option bool :=
  match input with
  | VBool b => Some b
  | VInt z => Some (negb (z =? 0)%Z)
  | VString s =>
      match ParseBool s with
      | Some b => Some b
      | None => if String.eqb s "" then Some false else None
      end
  | _ => None
  end.

(** [decodeMapFromMap] into a [map[string]string]: the entries are
    decoded one by one into the map that is already there (a nil map is
    replaced by a fresh one); an entry that does not decode is skipped and
    reported; a [nil] entry becomes the empty string. *)
Definition decodeMapFromMap (name : string) (data : gmap string Value)
    (val : option (gmap string string)) : option (gmap string string) * list string :=
  let valMap := default ∅ val in
  map_fold (fun k x acc =>
              match x with
              | VNil => (Some (<[k := ""]> (default ∅ (fst acc))), snd acc)
              | _ =>
                  match decodeString x with
                  | Some s => (Some (<[k := s]> (default ∅ (fst acc))), snd acc)
                  | None => (fst acc, snd acc ++ [name +:+ "[" +:+ k +:+ "]"])
                  end
              end) (Some valMap, []) data.

(** [Decoder.decode]: a [nil] input sets nothing; otherwise the kind of
    the output chooses the decoder.  A struct takes a map: every field
    whose key the map holds is decoded from that entry, the others keep
    their value, the errors of all fields are collected. *)
Fixpoint decode (name : string) (input : Value) (outVal : GoValue) {struct outVal}
  : GoValue * list string :=
  match input with
  | VNil => (outVal, [])
  | _ =>
      match outVal with
      | GString _ =>
          match decodeString input with
          | Some s => (GString s, [])
          | None => (outVal, [name])
          end
      | GBool _ =>
          match decodeBool input with
          | Some b => (GBool b, [])
          | None => (outVal, [name])
          end
      | GMap val =>
          match input with
          | VMap data => let r := decodeMapFromMap name data val in (GMap (fst r), snd r)
          | _ => (outVal, [name])
          end
      | GStruct fields =>
          match input with
          | VMap data =>
              let r :=
                (fix each (fs : list (StructField * GoValue))
                   : list (StructField * GoValue) * list string :=
                   match fs with
                   | [] => ([], [])
                   | (f, cur) :: fs' =>
                       let fieldName :=
                         if String.eqb name "" then fieldKey f
                         else name +:+ "." +:+ fieldKey f in
                       let d := match lookupField data (fieldKey f) with
                                | Some raw => decode fieldName raw cur
                                | None => (cur, [])
                                end in
                       let rest := each fs' in
                       ((f, fst d) :: fst rest, snd d ++ snd rest)
                   end) fields in
              (GStruct (fst r), snd r)
          | _ => (outVal, [name])
          end
      end
  end.

(** [NewDecoder] followed by [Decode]: the result has to be a pointer,
    and one that points somewhere. *)
Definition Decode (input : Value) (result : Target) : Target * option ViperError :=
  match result with
  | NotAPointer _ => (result, Some ResultNotPointer)
  | NilPointer => (result, Some ResultNotAddressable)
  | Pointer x =>
      let d := decode "" input x in
      (Pointer (fst d),
       match snd d with [] => None | errs => Some (DecodeErrors errs) end)
  end.

End mapstructure.

(** ** The viper store *)

(** The fields of [viper.Viper] that [config.go] reaches.  The override,
    flag, alias and key/value-store layers stay empty for the whole life of
    a [Config] (nothing in the package writes them) and are left out, and
    so are [allowEmptyEnv] (never set) and [keyDelim] (always a dot). *)
Record Viper := {
  configFile : string;
  configType : string;
  envPrefix : string;
  envKeyReplacer : option (ascii * ascii);
  automaticEnvApplied : bool;
  env : gmap string (list string);
  config : gmap string Value;
  defaults : gmap string Value
}.

Module viper.
Import GoStrings.

Definition keyDelim : string := ".".

Definition SupportedExts : list string :=
  ["json"; "toml"; "yaml"; "yml"; "properties"; "props"; "prop"; "hcl";
   "tfvars"; "dotenv"; "env"; "ini"].

(** [viper.New()]. *)
Definition New : Viper :=
  {| configFile := ""; configType := ""; envPrefix := "";
     envKeyReplacer := None; automaticEnvApplied := false;
     env := ∅; config := ∅; defaults := ∅ |}.

Definition SetConfigType (vp : Viper) (in_ : string) : Viper :=
  if String.eqb in_ "" then vp else
  {| configFile := configFile vp; configType := in_; envPrefix := envPrefix vp;
     envKeyReplacer := envKeyReplacer vp; automaticEnvApplied := automaticEnvApplied vp;
     env := env vp; config := config vp; defaults := defaults vp |}.

Definition SetConfigFile (vp : Viper) (in_ : string) : Viper :=
  if String.eqb in_ "" then vp else
  {| configFile := in_; configType := configType vp; envPrefix := envPrefix vp;
     envKeyReplacer := envKeyReplacer vp; automaticEnvApplied := automaticEnvApplied vp;
     env := env vp; config := config vp; defaults := defaults vp |}.

Definition SetEnvPrefix (vp : Viper) (in_ : string) : Viper :=
  if String.eqb in_ "" then vp else
  {| configFile := configFile vp; configType := configType vp; envPrefix := in_;
     envKeyReplacer := envKeyReplacer vp; automaticEnvApplied := automaticEnvApplied vp;
     env := env vp; config := config vp; defaults := defaults vp |}.

Definition SetEnvKeyReplacer (vp : Viper) (old new : ascii) : Viper :=
  {| configFile := configFile vp; configType := configType vp; envPrefix := envPrefix vp;
     envKeyReplacer := Some (old, new); automaticEnvApplied := automaticEnvApplied vp;
     env := env vp; config := config vp; defaults := defaults vp |}.

Definition AutomaticEnv (vp : Viper) : Viper :=
  {| configFile := configFile vp; configType := configType vp; envPrefix := envPrefix vp;
     envKeyReplacer := envKeyReplacer vp; automaticEnvApplied := true;
     env := env vp; config := config vp; defaults := defaults vp |}.

Definition setEnv (vp : Viper) (e : gmap string (list string)) : Viper :=
  {| configFile := configFile vp; configType := configType vp; envPrefix := envPrefix vp;
     envKeyReplacer := envKeyReplacer vp; automaticEnvApplied := automaticEnvApplied vp;
     env := e; config := config vp; defaults := defaults vp |}.

Definition setConfig (vp : Viper) (c : gmap string Value) : Viper :=
  {| configFile := configFile vp; configType := configType vp; envPrefix := envPrefix vp;
     envKeyReplacer := envKeyReplacer vp; automaticEnvApplied := automaticEnvApplied vp;
     env := env vp; config := c; defaults := defaults vp |}.

Definition setDefaults (vp : Viper) (d : gmap string Value) : Viper :=
  {| configFile := configFile vp; configType := configType vp; envPrefix := envPrefix vp;
     envKeyReplacer := envKeyReplacer vp; automaticEnvApplied := automaticEnvApplied vp;
     env := env vp; config := config vp; defaults := d |}.

(** [mergeWithEnvPrefix]. *)
Definition mergeWithEnvPrefix (vp : Viper) (in_ : string) : string :=
  if String.eqb (envPrefix vp) "" then ToUpper in_
  else ToUpper (envPrefix vp +:+ "_" +:+ in_).

(** [BindEnv(key, names...)] with at least one name; with the key alone
    the name is the prefixed key.  The call fails only without arguments,
    which no caller here does. *)
Definition BindEnv (vp : Viper) (key : string) (names : list string) : Viper :=
  let key := ToLower key in
  let bound := default [] (env vp !! key) in
  match names with
  | [] => setEnv vp (<[key := bound ++ [mergeWithEnvPrefix vp key]]> (env vp))
  | _ => setEnv vp (<[key := bound ++ names]> (env vp))
  end.

(** [getEnv]: the replacer is applied to the name, and a variable set to
    the empty string counts as unset. *)
Definition getEnv (w : World) (vp : Viper) (key : string) : option string :=
  let key := match envKeyReplacer vp with
             | Some (old, new) => ReplaceByte old new key
             | None => key
             end in
  match LookupEnv w key with
  | Some val => if String.eqb val "" then None else Some val
  | None => None
  end.

(** The copy with lower-case keys that [SetDefault] and [ReadInConfig]
    make of a nested map ([copyAndInsensitiviseMap], [insensitiviseMap]). *)
Definition lowerKeys (m : gmap string Value) : gmap string Value :=
  map_fold (fun k x acc => <[ToLower k := x]> acc) ∅ m.

Fixpoint toCaseInsensitiveValue (x : Value) : Value :=
  match x with
  | VMap m => VMap (lowerKeys (toCaseInsensitiveValue <$> m))
  | _ => x
  end.

Definition insensitiviseMap (m : gmap string Value) : gmap string Value :=
  lowerKeys (toCaseInsensitiveValue <$> m).

(** [deepSearch(m, path[:len-1])] followed by the store at the last key:
    intermediate maps are created, and an intermediate value that is not a
    map is replaced by a fresh map. *)
Fixpoint setPath (m : gmap string Value) (path : list string) (val : Value)
  : gmap string Value :=
  match path with
  | [] => m
  | [k] => <[ToLower k := val]> m
  | k :: rest =>
      let m3 := match m !! k with Some (VMap m3) => m3 | _ => ∅ end in
      <[k := VMap (setPath m3 rest val)]> m
  end.

(** [SetDefault(key, value)]. *)
Definition SetDefault (vp : Viper) (key : string) (value : Value) : Viper :=
  let key := ToLower key in
  let value := toCaseInsensitiveValue value in
  setDefaults vp (setPath (defaults vp) (Split "." key) value).

(** [searchMap]: [nil] when a step is missing or meets a value that is not
    a map. *)
Fixpoint searchMap (source : gmap string Value) (path : list string) : Value :=
  match path with
  | [] => VMap source
  | k :: rest =>
      match source !! k with
      | Some next =>
          match rest with
          | [] => next
          | _ => match next with VMap m => searchMap m rest | _ => VNil end
          end
      | None => VNil
      end
  end.

(** [searchIndexableWithPathPrefixes] on maps: at every level the longest
    joined prefix of the path that is a key is tried first, so that a key
    holding a dot is found too.  Every recursive call drops at least one
    path element; [fuel] is the length of the path. *)
Fixpoint searchIndexableWithPathPrefixes (fuel : nat) (source : gmap string Value)
    (path : list string) : Value :=
  match path with
  | [] => VMap source
  | _ =>
      match fuel with
      | O => VNil
      | S fuel' =>
          (fix tryPrefix (i : nat) : Value :=
             match i with
             | O => VNil
             | S i' =>
                 let prefixKey := ToLower (Join (take i path) keyDelim) in
                 let val :=
                   match source !! prefixKey with
                   | None => VNil
                   | Some next =>
                       if (i =? length path)%nat then next
                       else match next with
                            | VMap m => searchIndexableWithPathPrefixes fuel' m (drop i path)
                            | _ => VNil
                            end
                   end in
                 if isNil val then tryPrefix i' else val
             end) (length path)
      end
  end.

(** [isPathShadowedInDeepMap]: the joined parent path whose value in [m]
    is not a map, or the empty string. *)
Definition isPathShadowedInDeepMap (path : list string) (m : gmap string Value) : string :=
  (fix scan (i n : nat) : string :=
     match n with
     | O => ""
     | S n' =>
         match searchMap m (take i path) with
         | VNil => ""
         | VMap _ => scan (S i) n'
         | _ => Join (take i path) keyDelim
         end
     end) 1%nat (length path - 1)%nat.

(** [isPathShadowedInAutoEnv]: the first parent path that has a variable
    of its own in the environment, or the empty string. *)
Definition isPathShadowedInAutoEnv (w : World) (vp : Viper) (path : list string) : string :=
  (fix scan (i n : nat) : string :=
     match n with
     | O => ""
     | S n' =>
         let parentKey := Join (take i path) keyDelim in
         match getEnv w vp (mergeWithEnvPrefix vp parentKey) with
         | Some _ => parentKey
         | None => scan (S i) n'
         end
     end) 1%nat (length path - 1)%nat.

(** The first bound variable that is set. *)
Fixpoint firstBound (w : World) (vp : Viper) (envkeys : list string) : option string :=
  match envkeys with
  | [] => None
  | envkey :: rest =>
      match getEnv w vp envkey with
      | Some val => Some val
      | None => firstBound w vp rest
      end
  end.

(** [find]: environment, then config file, then defaults; a nested key is
    [nil] as soon as a layer above the one that holds it has a value at a
    parent path.  (The check of parents among the bound keys,
    [isPathShadowedInFlatMap(path, v.env)], does not apply to the
    [map[string][]string] that [v.env] is and answers "not shadowed".) *)
Definition find (w : World) (vp : Viper) (lcaseKey : string) : Value :=
  let path := Split "." lcaseKey in
  let nested := (1 <? length path)%nat in
  match (if automaticEnvApplied vp
         then getEnv w vp (mergeWithEnvPrefix vp lcaseKey) else None) with
  | Some val => VString val
  | None =>
      if automaticEnvApplied vp && nested
         && negb (String.eqb (isPathShadowedInAutoEnv w vp path) "")
      then VNil
      else
        match firstBound w vp (default [] (env vp !! lcaseKey)) with
        | Some val => VString val
        | None =>
            let val := searchIndexableWithPathPrefixes (length path) (config vp) path in
            if negb (isNil val) then val
            else if nested && negb (String.eqb (isPathShadowedInDeepMap path (config vp)) "")
            then VNil
            else searchMap (defaults vp) path
        end
  end.

(** [Get], [IsSet]. *)
Definition Get (w : World) (vp : Viper) (key : string) : Value :=
  find w vp (ToLower key).

Definition IsSet (w : World) (vp : Viper) (key : string) : bool :=
  negb (isNil (find w vp (ToLower key))).

(** [cast.ToStringE] and [cast.ToBoolE]: the value and whether the cast
    failed. *)
Definition ToStringE (x : Value) : string * bool :=
  match x with
  | VNil => ("", false)
  | VString s => (s, false)
  | VBool b => (FormatBool b, false)
  | VInt z => (FormatInt z, false)
  | VMap _ => ("", true)
  end.

Definition ToBoolE (x : Value) : bool * bool :=
  match x with
  | VNil => (false, false)
  | VBool b => (b, false)
  | VInt z => (negb (z =? 0)%Z, false)
  | VString s => match ParseBool s with Some b => (b, false) | None => (false, true) end
  | VMap _ => (false, true)
  end.

(** [GetString] and [GetBool] drop the error of the cast. *)
Definition GetString (w : World) (vp : Viper) (key : string) : string :=
  fst (ToStringE (Get w vp key)).

Definition GetBool (w : World) (vp : Viper) (key : string) : bool :=
  fst (ToBoolE (Get w vp key)).


(** [flattenAndMergeMap(shadow, m, prefix)]: the dotted paths of the
    leaves of [m], added to [shadow]; a nested map whose own path is
    already in [shadow] is skipped. *)
Fixpoint flattenValue (val : Value) (prefix : string) (shadow : gset string)
    {struct val} : gset string :=
  match val with
  | VMap m =>
      if negb (String.eqb prefix "") && bool_decide (prefix ∈ shadow) then shadow
      else
        let prefix' := if String.eqb prefix "" then prefix else prefix +:+ keyDelim in
        map_fold (fun k x acc =>
                    match x with
                    | VMap _ => flattenValue x (prefix' +:+ k) acc
                    | _ => {[ToLower (prefix' +:+ k)]} ∪ acc
                    end) shadow m
  | _ => shadow
  end.

Definition flattenAndMergeMap (shadow : gset string) (m : gmap string Value)
    (prefix : string) : gset string :=
  flattenValue (VMap m) prefix shadow.

(** [mergeFlatMap(shadow, v.env)]: the bound keys, but for those with a
    parent path already in [shadow]. *)
Definition mergeFlatMap (shadow : gset string) (keys : list string) : gset string :=
  foldl (fun acc k =>
           let path := Split "." k in
           if existsb (fun i => bool_decide (Join (take i path) keyDelim ∈ acc))
                      (seq 1 (length path - 1))
           then acc else {[ToLower k]} ∪ acc) shadow keys.

(** [AllKeys]: bound environment keys, then the config file, then the
    defaults. *)
Definition AllKeys (vp : Viper) : list string :=
  let m := mergeFlatMap ∅ (fst <$> map_to_list (env vp)) in
  let m := flattenAndMergeMap m (config vp) "" in
  let m := flattenAndMergeMap m (defaults vp) "" in
  elements m.

(** [getSettings(keys)] and [AllSettings]: the nested map that holds, for
    every key, the value [Get] finds for it. *)
Definition getSettings (w : World) (vp : Viper) (keys : list string) : gmap string Value :=
  foldl (fun m k =>
           let value := Get w vp k in
           if isNil value then m else setPath m (Split "." k) value) ∅ keys.

Definition AllSettings (w : World) (vp : Viper) : gmap string Value :=
  getSettings w vp (AllKeys vp).

(** [ReadInConfig]: the file named by [SetConfigFile] is read and parsed
    in the format given by [SetConfigType]; on success its tree replaces
    the config layer.  (With no file name viper would search its config
    paths; [WithFilepath] never gets there with an empty name.) *)
Definition ReadInConfig (w : World) (vp : Viper) : Viper * option ViperError :=
  if negb (existsb (String.eqb (configType vp)) SupportedExts)
  then (vp, Some (UnsupportedConfigError (configType vp)))
  else
    match ReadFile w (configFile vp) with
    | None => (vp, Some (FileReadError (configFile vp)))
    | Some bytes =>
        match Codec w (ToLower (configType vp)) bytes with
        | None => (vp, Some ConfigParseError)
        | Some c => (setConfig vp (insensitiviseMap c), None)
        end
    end.

(** [Unmarshal(rawVal)]: all settings, decoded into the target. *)
Definition Unmarshal (w : World) (vp : Viper) (rawVal : Target) : Target * option ViperError :=
  mapstructure.Decode (VMap (AllSettings w vp)) rawVal.

(** [cast.ToStringMapString], error dropped: the entries of a map, each
    turned into a string by [cast.ToString]; for a string, what
    [encoding/json] makes of it as a JSON object (the parser is the
    argument [json], which returns the map as the failed or finished parse
    leaves it); the empty map, never nil, for everything else. *)
Definition ToStringMapString (json : string -> gmap string string) (x : Value)
  : gmap string string :=
  match x with
  | VMap m => (fun e => fst (ToStringE e)) <$> m
  | VString s => json s
  | _ => ∅
  end.

(** [GetStringMapString]. *)
Definition GetStringMapString (json : string -> gmap string string) (w : World)
    (vp : Viper) (key : string) : gmap string string :=
  ToStringMapString json (Get w vp key).

End viper.

(** ** The package [config] *)

Import GoStrings.

(** [ConfigStruct].  Its tags are in [fieldEnvironment], [fieldDebug] and
    [fieldSettings] below: [Environment] is the one field marked
    [required], and the [default] tag of [Settings] is the empty string. *)
Record ConfigStruct := {
  Environment : string;
  Debug : bool;
  Settings : option (gmap string string)
}.

Definition fieldEnvironment : StructField :=
  {| Name := "Environment"; mapstructureTag := "environment,required";
     defaultTag := "development" |}.
Definition fieldDebug : StructField :=
  {| Name := "Debug"; mapstructureTag := "debug"; defaultTag := "false" |}.
Definition fieldSettings : StructField :=
  {| Name := "Settings"; mapstructureTag := "settings"; defaultTag := "" |}.

(** [reflect.ValueOf(&c.configStruct).Elem()]: the fields in declaration
    order, and the write-back of what the [Set...] calls leave in them. *)
Definition reflectValueOf (cs : ConfigStruct) : list (StructField * GoValue) :=
  [(fieldEnvironment, GString (Environment cs));
   (fieldDebug, GBool (Debug cs));
   (fieldSettings, GMap (Settings cs))].

Definition storeFields (fields : list (StructField * GoValue)) (cs : ConfigStruct)
  : ConfigStruct :=
  match fields with
  | [(_, GString e); (_, GBool d); (_, GMap s)] =>
      {| Environment := e; Debug := d; Settings := s |}
  | _ => cs
  end.

(** [Config]: the viper instance and the typed projection. *)
Record Config := {
  v : Viper;
  configStruct : ConfigStruct
}.

(** The errors of the package, one constructor per [fmt.Errorf] (and one
    for the viper error that [Unmarshal] passes on as it is). *)
Inductive Error :=
  | ErrUnsupportedFormat (path : string)
  | ErrReadConfig (path : string) (cause : ViperError)
  | ErrUnmarshalConfigStruct (cause : ViperError)
  | ErrUnmarshalFromEnv (cause : ViperError)
  | ErrApplyDefaults (cause : Error)
  | ErrRequiredValidation (cause : Error)
  | ErrCannotSet (field : string)
  | ErrUnsupportedKind (kind : string)
  | ErrRequiredField (field : string)
  | ErrViper (cause : ViperError).

(** The type [Option], a function from a pointer to the store to an
    error: the store as the call leaves it, and the error. *)
Definition Option : Type := Config -> Config * option Error.

(** [f.CanSet()] for a field reached through a pointer to the struct: the
    field is exported. *)
Definition CanSet (field : StructField) : bool :=
  match Name field with
  | String c _ => isUpper c
  | EmptyString => false
  end.

(** The loop of [applyDefaults] over the fields of the struct. *)
Fixpoint applyDefaultsLoop (fields : list (StructField * GoValue))
  : list (StructField * GoValue) * option Error :=
  match fields with
  | [] => ([], None)
  | (field, f) :: rest =>
      let continue (f' : GoValue) :=
        let r := applyDefaultsLoop rest in ((field, f') :: fst r, snd r) in
      let defaultVal := defaultTag field in
      if String.eqb defaultVal "" then continue f
      else if negb (CanSet field) then (fields, Some (ErrCannotSet (Name field)))
      else if negb (IsZero f) then continue f
      else
        match f with
        | GString _ => continue (GString defaultVal)
        | GBool _ => continue (GBool (String.eqb defaultVal "true"))
        | GMap _ => continue (if String.eqb defaultVal "" then GMap (Some ∅) else f)
        | GStruct _ => (fields, Some (ErrUnsupportedKind "struct"))
        end
  end.

(** [applyDefaults]. *)
Definition applyDefaults (c : Config) : Config * option Error :=
  let r := applyDefaultsLoop (reflectValueOf (configStruct c)) in
  ({| v := v c; configStruct := storeFields (fst r) (configStruct c) |}, snd r).

(** The loop of [validateRequiredFields]. *)
Fixpoint validateRequiredLoop (fields : list (StructField * GoValue)) : option Error :=
  match fields with
  | [] => None
  | (field, f) :: rest =>
      if Contains (mapstructureTag field) ",required" && IsZero f
      then Some (ErrRequiredField (Name field))
      else validateRequiredLoop rest
  end.

(** [validateRequiredFields]. *)
Definition validateRequiredFields (c : Config) : option Error :=
  validateRequiredLoop (reflectValueOf (configStruct c)).

(** [c.v.Unmarshal(&c.configStruct)]. *)
Definition unmarshalConfigStruct (w : World) (c : Config) : Config * option ViperError :=
  let r := viper.Unmarshal w (v c) (Pointer (GStruct (reflectValueOf (configStruct c)))) in
  match fst r with
  | Pointer (GStruct fields) =>
      ({| v := v c; configStruct := storeFields fields (configStruct c) |}, snd r)
  | _ => (c, snd r)
  end.

(** [WithFilepath]. *)
Definition WithFilepath (w : World) (path : string) : Option := fun c =>
  let ext := ToLower (Ext path) in
  match (if String.eqb ext ".yaml" || String.eqb ext ".yml" then Some "yaml"
         else if String.eqb ext ".json" then Some "json"
         else None) with
  | None => (c, Some (ErrUnsupportedFormat path))
  | Some ty =>
      let vp := viper.SetConfigFile (viper.SetConfigType (v c) ty) path in
      let r := viper.ReadInConfig w vp in
      let c1 := {| v := fst r; configStruct := configStruct c |} in
      match snd r with
      | Some err => (c1, Some (ErrReadConfig path err))
      | None =>
          let u := unmarshalConfigStruct w c1 in
          match snd u with
          | Some err => (fst u, Some (ErrUnmarshalConfigStruct err))
          | None => (fst u, validateRequiredFields (fst u))
          end
      end
  end.

(** [WithDefault]; [defaults] lists the entries of the Go map in the order
    the [range] statement visits them. *)
Definition WithDefault (defaults : list (string * Value)) : Option := fun c =>
  let vp := foldl (fun vp kv => viper.SetDefault vp (fst kv) (snd kv)) (v c) defaults in
  ({| v := vp; configStruct := configStruct c |}, None).

(** [WithEnv].  [BindEnv] fails only when called without a key, so the
    error return inside the loop is never taken. *)
Definition envKeys : list string := ["environment"; "debug"; "app.name"; "app.port"].

(** The variable a key is bound to:
    [fmt.Sprintf("%s_%s", strings.ToUpper(prefix), strings.ToUpper(envKey))]. *)
Definition boundVariable (prefix key : string) : string :=
  let envKey := ReplaceByte "." "_" key in
  ToUpper prefix +:+ "_" +:+ ToUpper envKey.

Definition bindEnvKeys (prefix : string) (vp : Viper) : Viper :=
  foldl (fun vp key => viper.BindEnv vp key [boundVariable prefix key]) vp envKeys.

Definition WithEnv (w : World) (prefix : string) : Option := fun c =>
  let vp := viper.SetEnvPrefix (v c) (ToUpper prefix) in
  let vp := viper.SetEnvKeyReplacer vp "." "_" in
  let vp := viper.AutomaticEnv vp in
  let vp := bindEnvKeys prefix vp in
  let u := unmarshalConfigStruct w {| v := vp; configStruct := configStruct c |} in
  match snd u with
  | Some err => (fst u, Some (ErrUnmarshalFromEnv err))
  | None => (fst u, validateRequiredFields (fst u))
  end.

(** The loop of [New] over the options. *)
Fixpoint applyOptions (opts : list Option) (c : Config) : option Config * option Error :=
  match opts with
  | [] => (Some c, None)
  | opt :: rest =>
      let r := opt c in
      match snd r with
      | Some err => (None, Some err)
      | None => applyOptions rest (fst r)
      end
  end.

(** [New]: the store and the error it returns, each of which may be nil. *)
Definition newConfig : Config :=
  {| v := viper.New;
     configStruct := {| Environment := ""; Debug := false; Settings := Some ∅ |} |}.

Definition New (opts : list Option) : option Config * option Error :=
  let r := applyDefaults newConfig in
  match snd r with
  | Some err => (None, Some (ErrApplyDefaults err))
  | None =>
      match validateRequiredFields (fst r) with
      | Some err => (None, Some (ErrRequiredValidation err))
      | None => applyOptions opts (fst r)
      end
  end.

(** The accessors. *)
Definition Get (w : World) (c : Config) (key : string) : Value :=
  viper.Get w (v c) key.

Definition GetStringWithDefault (w : World) (c : Config) (key defaultValue : string) : string :=
  if viper.IsSet w (v c) key then viper.GetString w (v c) key else defaultValue.

Definition GetBool (w : World) (c : Config) (key : string) : bool :=
  viper.GetBool w (v c) key.

Definition GetStringMapString (json : string -> gmap string string) (w : World)
    (c : Config) (key : string) : gmap string string :=
  viper.GetStringMapString json w (v c) key.

Definition GetConfigStruct (c : Config) : ConfigStruct := configStruct c.

Definition Unmarshal (w : World) (c : Config) (target : Target) : Target * option Error :=
  let r := viper.Unmarshal w (v c) target in
  (fst r, ErrViper <$> snd r).

(** ** Notions used in the statements; worlds and stores of the examples *)

(** No file, no variable. *)
Definition emptyWorld : World :=
  {| ReadFile := fun _ => None; Codec := fun _ _ => None; LookupEnv := fun _ => None |}.

(** A world whose [config.yaml] parses to [tree] and whose environment is
    [environ]; every other file is missing. *)
Definition worldWith (tree : gmap string Value) (environ : list (string * string)) : World :=
  {| ReadFile := fun path => if String.eqb path "config.yaml" then Some "config" else None;
     Codec := fun _ _ => Some tree;
     LookupEnv := fun name =>
       snd <$> List.find (fun kv => String.eqb (fst kv) name) environ |}.



(** The store [New] hands to its first option: struct-tag defaults applied
    to the fresh projection, nothing in the tree. *)
Definition defaultedConfig : Config :=
  {| v := viper.New;
     configStruct := {| Environment := "development"; Debug := false; Settings := Some ∅ |} |}.

(** All options of a list succeed in turn, taking the store from [c] to
    [c']. *)
Inductive OptionsSucceed : list Option -> Config -> Config -> Prop :=
  | OptionsSucceed_nil c : OptionsSucceed [] c c
  | OptionsSucceed_cons (opt : Option) rest c c1 c' :
      opt c = (c1, None) ->
      OptionsSucceed rest c1 c' ->
      OptionsSucceed (opt :: rest) c c'.

(** The first option of the list to fail, on the store its predecessors
    left, fails with [err]. *)
Definition FirstFailure (opts : list Option) (c : Config) (err : Error) : Prop :=
  exists (before : list Option) (opt : Option) (after : list Option) (c1 : Config),
    opts = before ++ opt :: after /\
    OptionsSucceed before c c1 /\
    snd (opt c1) = Some err.

(** A tree like the one of the package's YAML test file. *)
Definition productionTree : gmap string Value :=
  <["environment" := VString "production"]>
  (<["debug" := VBool true]>
  (<["settings" := VMap (<["key1" := VString "value1"]> ∅)]> ∅)).

(** A world in which the file [config.YAML] exists and parses. *)
Definition upperCaseWorld : World :=
  {| ReadFile := fun path => if String.eqb path "config.YAML" then Some "config" else None;
     Codec := fun _ _ => Some productionTree;
     LookupEnv := fun _ => None |}.

(** The file of the examples, and an environment that sets
    [CONFIG_ENVIRONMENT]. *)
Definition envFileWorld : World :=
  worldWith productionTree [("CONFIG_ENVIRONMENT", "testing")].

(** What [find] returns once the environment has nothing to say: the
    config-file layer, then the defaults. *)
Definition findBelowEnv (vp : Viper) (lcaseKey : string) : Value :=
  let path := Split "." lcaseKey in
  let nested := (1 <? length path)%nat in
  let val := viper.searchIndexableWithPathPrefixes (length path) (config vp) path in
  if negb (isNil val) then val
  else if nested && negb (String.eqb (viper.isPathShadowedInDeepMap path (config vp)) "")
  then VNil
  else viper.searchMap (defaults vp) path.

(** [CONFIG_APP] is set, [CONFIG_APP_NAME] is not. *)
Definition parentVariableWorld : World := worldWith ∅ [("CONFIG_APP", "anything")].







(** One round of the loop of [decode] over the fields of a struct. *)
Definition decodeField (name : string) (data : gmap string Value)
    (fx : StructField * GoValue) : GoValue * list string :=
  let fieldName :=
    if String.eqb name "" then mapstructure.fieldKey (fst fx)
    else name +:+ "." +:+ mapstructure.fieldKey (fst fx) in
  match mapstructure.lookupField data (mapstructure.fieldKey (fst fx)) with
  | Some raw => mapstructure.decode fieldName raw (snd fx)
  | None => (snd fx, [])
  end.





(** [CONFIG_APP_NAME] is set; the other variables are not. *)
Definition appNameWorld : World := worldWith ∅ [("CONFIG_APP_NAME", "env-app")].

(** A store with programmatic defaults for the [app] section. *)
Definition appDefaultsConfig : Config :=
  fst (WithDefault [("app.name", VString "default-app"); ("app.port", VString "8080");
                    ("debug", VBool true)] defaultedConfig).

(** The options the package exports, in a given world. *)
Inductive PackageOption (w : World) : Option -> Prop :=
  | PackageOption_file path : PackageOption w (WithFilepath w path)
  | PackageOption_default defaults : PackageOption w (WithDefault defaults)
  | PackageOption_env prefix : PackageOption w (WithEnv w prefix).

(** ** Notions used in the further properties *)


(** The type the file option sets for a path, if it accepts the path. *)
Definition fileType (path : string) : option string :=
  let ext := ToLower (Ext path) in
  if String.eqb ext ".yaml" || String.eqb ext ".yml" then Some "yaml"
  else if String.eqb ext ".json" then Some "json"
  else None.

(** The viper instance the file option leaves: untouched for an extension
    it refuses, else with the type and the file name set and, when the file
    reads and parses, its tree as the config layer. *)
Definition afterFile (w : World) (path : string) (vp : Viper) : Viper :=
  let ext := ToLower (Ext path) in
  match (if String.eqb ext ".yaml" || String.eqb ext ".yml" then Some "yaml"
         else if String.eqb ext ".json" then Some "json"
         else None) with
  | None => vp
  | Some ty => fst (viper.ReadInConfig w (viper.SetConfigFile (viper.SetConfigType vp ty) path))
  end.

(** The config layer after [ReadInConfig] has run with the given file name
    and type on the layer [cfg]. *)
Definition readLayer (w : World) (file type : string) (cfg : gmap string Value)
  : gmap string Value :=
  if negb (existsb (String.eqb type) viper.SupportedExts) then cfg
  else match ReadFile w file with
       | None => cfg
       | Some bytes =>
           match Codec w (ToLower type) bytes with
           | None => cfg
           | Some c => viper.insensitiviseMap c
           end
       end.

(** The defaults layer after the entries of a default option are stored. *)
Definition storeDefaults (defaults0 : list (string * Value)) (d : gmap string Value)
  : gmap string Value :=
  foldl (fun m kv => viper.setPath m (Split "." (ToLower (fst kv)))
                       (viper.toCaseInsensitiveValue (snd kv))) d defaults0.

(** The viper instance the environment option leaves. *)
Definition afterEnv (prefix : string) (vp : Viper) : Viper :=
  bindEnvKeys prefix
    (viper.AutomaticEnv
       (viper.SetEnvKeyReplacer (viper.SetEnvPrefix vp (ToUpper prefix)) "." "_")).

(** The bindings after the loop of the environment option. *)
Definition bindAll (prefix : string) (en : gmap string (list string))
  : gmap string (list string) :=
  foldl (fun en key =>
           <[ToLower key := (default [] (en !! ToLower key) ++ [boundVariable prefix key])%list]> en)
        en envKeys.

(** What [decode] leaves in a string field and in a bool field. *)
Definition decodedString (old : string) (entry : option Value) : string :=
  match entry with
  | Some VNil | None => old
  | Some raw => default old (mapstructure.decodeString raw)
  end.

Definition decodedBool (old : bool) (entry : option Value) : bool :=
  match entry with
  | Some VNil | None => old
  | Some raw => default old (mapstructure.decodeBool raw)
  end.






(** [CONFIG_DEBUG] is set to a string that is no boolean. *)
Definition malformedDebugWorld : World := worldWith ∅ [("CONFIG_DEBUG", "maybe")].

(** * Properties *)

(** ** Required-field validation *)



Lemma validateRequiredFields_Environment (c : Config) :
  validateRequiredFields c =
  if String.eqb (Environment (configStruct c)) ""
  then Some (ErrRequiredField "Environment") else None.
Proof.
  unfold validateRequiredFields, reflectValueOf. cbn [validateRequiredLoop].
  change (Contains (mapstructureTag fieldEnvironment) ",required") with true.
  change (Contains (mapstructureTag fieldDebug) ",required") with false.
  change (Contains (mapstructureTag fieldSettings) ",required") with false.
  cbn [andb IsZero].
  destruct (String.eqb (Environment (configStruct c)) ""); reflexivity.
Qed.

(** An option that ends with the validation cannot succeed and leave the
    required field empty. *)
Lemma WithFilepath_success_Environment (w : World) (path : string) (c c' : Config) :
  WithFilepath w path c = (c', None) -> Environment (configStruct c') <> "".
Proof.
  unfold WithFilepath.
  destruct (if String.eqb (ToLower (Ext path)) ".yaml" || String.eqb (ToLower (Ext path)) ".yml"
            then Some "yaml"
            else if String.eqb (ToLower (Ext path)) ".json" then Some "json" else None)
    as [ty|]; [|discriminate].
  cbv zeta.
  destruct (snd (viper.ReadInConfig w _)); [discriminate|].
  destruct (snd (unmarshalConfigStruct w _)); [discriminate|].
  intros [= <- Hvalid]. rewrite validateRequiredFields_Environment in Hvalid.
  intros Hempty. rewrite Hempty in Hvalid. discriminate Hvalid.
Qed.

Lemma WithEnv_success_Environment (w : World) (prefix : string) (c c' : Config) :
  WithEnv w prefix c = (c', None) -> Environment (configStruct c') <> "".
Proof.
  unfold WithEnv. cbv zeta.
  destruct (snd (unmarshalConfigStruct w _)); [discriminate|].
  intros [= <- Hvalid]. rewrite validateRequiredFields_Environment in Hvalid.
  intros Hempty. rewrite Hempty in Hvalid. discriminate Hvalid.
Qed.


(** ** Default application *)

(** X2: over the fields of any struct, the loop of [applyDefaults] keeps
    the fields and their order and writes to a field only when it holds its
    zero value. *)
Lemma applyDefaultsLoop_keeps_nonzero fields :
  Forall2 (fun old new => fst new = fst old /\ (IsZero (snd old) = false -> snd new = snd old))
          fields (fst (applyDefaultsLoop fields)).
Proof.
  assert (Hrefl : forall l : list (StructField * GoValue),
             Forall2 (fun old new => fst new = fst old /\
                                     (IsZero (snd old) = false -> snd new = snd old)) l l).
  { induction l; constructor; auto. }
  induction fields as [|[field f] rest IH]; simpl; [constructor|].
  destruct (String.eqb (defaultTag field) ""); simpl.
  { constructor; auto. }
  destruct (CanSet field); simpl; [|apply Hrefl].
  destruct (IsZero f) eqn:Hz; simpl.
  - destruct f; simpl;
      try (constructor;
           [split; [reflexivity | intros Hn; cbn [snd] in Hn; rewrite Hz in Hn; discriminate]
           | exact IH]).
    apply Hrefl.
  - constructor; auto.
Qed.

(** X3: over the fields of any struct, a second run of the loop of
    [applyDefaults] changes nothing more and ends the same way, error
    included. *)
Lemma applyDefaultsLoop_idempotent fields :
  applyDefaultsLoop (fst (applyDefaultsLoop fields)) = applyDefaultsLoop fields.
Proof.
  induction fields as [|[field f] rest IH]; simpl; [reflexivity|].
  destruct (String.eqb (defaultTag field) "") eqn:Hd; simpl.
  { rewrite Hd, IH. reflexivity. }
  destruct (CanSet field) eqn:Hc; simpl.
  2:{ rewrite Hd, Hc. reflexivity. }
  destruct (IsZero f) eqn:Hz; simpl.
  2:{ rewrite Hd, Hc, Hz, IH. reflexivity. }
  destruct f as [s|b|m|fs]; simpl.
  - rewrite Hd, Hc. simpl. rewrite ?Hd. simpl. rewrite IH. reflexivity.
  - rewrite Hd, Hc. simpl.
    destruct (String.eqb (defaultTag field) "true"); simpl; rewrite IH; reflexivity.
  - rewrite Hd, Hc. simpl in Hz. rewrite Hz, IH. reflexivity.
  - rewrite Hd, Hc. change (IsZero (GStruct fs)) with
      ((fix all (fs : list (StructField * GoValue)) : bool :=
          match fs with [] => true | (_, y) :: fs' => IsZero y && all fs' end) fs) in Hz.
    simpl. rewrite Hz. reflexivity.
Qed.

(** C10: [applyDefaults] never changes a field of the projection that holds
    a non-zero value (a non-empty [Environment], a true [Debug], a non-nil
    [Settings]), leaves the viper instance alone, never fails on
    [ConfigStruct], and run a second time returns what it returned the
    first time. *)
Theorem applyDefaults_keeps_nonzero_idempotent (c : Config) :
  snd (applyDefaults c) = None
  /\ v (fst (applyDefaults c)) = v c
  /\ (Environment (configStruct c) <> "" ->
      Environment (configStruct (fst (applyDefaults c))) = Environment (configStruct c))
  /\ (Debug (configStruct c) = true ->
      Debug (configStruct (fst (applyDefaults c))) = true)
  /\ (Settings (configStruct c) <> None ->
      Settings (configStruct (fst (applyDefaults c))) = Settings (configStruct c))
  /\ applyDefaults (fst (applyDefaults c)) = applyDefaults c.
Proof.
  destruct c as [vp [e d s]].
  unfold applyDefaults, reflectValueOf. simpl.
  destruct (String.eqb e "") eqn:He; destruct d; simpl; rewrite ?He; simpl;
    repeat split; try reflexivity; try congruence; auto;
    intros Hne; apply String.eqb_eq in He; congruence.
Qed.

(** ** Construction *)

Lemma New_applyOptions (opts : list Option) :
  applyDefaults newConfig = (defaultedConfig, None) /\
  validateRequiredFields defaultedConfig = None /\
  New opts = applyOptions opts defaultedConfig.
Proof. repeat split. Qed.

(** C4: with no options [New] succeeds, and the projection of the store it
    returns has [Environment] equal to "development", [Debug] false and
    [Settings] an empty map that is not nil. *)
Theorem New_without_options :
  exists c, New [] = (Some c, None)
    /\ Environment (GetConfigStruct c) = "development"
    /\ Debug (GetConfigStruct c) = false
    /\ Settings (GetConfigStruct c) = Some ∅.
Proof. exists defaultedConfig. repeat split. Qed.

Lemma applyOptions_outcome (opts : list Option) (c : Config) :
  (exists c', applyOptions opts c = (Some c', None) /\ OptionsSucceed opts c c') \/
  (exists err, applyOptions opts c = (None, Some err) /\ FirstFailure opts c err).
Proof.
  revert c. induction opts as [|opt rest IH]; intros c; simpl.
  - left. exists c. split; [reflexivity | constructor].
  - destruct (opt c) as [c1 [err|]] eqn:Hopt; simpl.
    + right. exists err. split; [reflexivity|].
      exists [], opt, rest, c. repeat split; [constructor | rewrite Hopt; reflexivity].
    + destruct (IH c1) as [(c' & Hrun & Hok) | (err & Hrun & Hfail)].
      * left. exists c'. split; [exact Hrun | econstructor; eassumption].
      * right. exists err. split; [exact Hrun|].
        destruct Hfail as (before & o & after & c2 & -> & Hbefore & Herr).
        exists (opt :: before), o, after, c2.
        repeat split; [econstructor; eassumption | exact Herr].
Qed.

(** C7: for every list of options, [New] returns either a store and no
    error, every option having succeeded in turn, or no store and the
    error of the first option that fails; never a store together with an
    error.  Default application and the validation before the options come
    first and do not fail on the fresh projection. *)
Theorem New_store_or_first_error (opts : list Option) :
  snd (applyDefaults newConfig) = None
  /\ validateRequiredFields (fst (applyDefaults newConfig)) = None
  /\ ((exists c, New opts = (Some c, None)
                 /\ OptionsSucceed opts (fst (applyDefaults newConfig)) c)
      \/ (exists err, New opts = (None, Some err)
                      /\ FirstFailure opts (fst (applyDefaults newConfig)) err)).
Proof.
  split; [reflexivity | split; [reflexivity|]].
  destruct (New_applyOptions opts) as (_ & _ & ->).
  exact (applyOptions_outcome opts defaultedConfig).
Qed.

(** The options of the package keep the required field of the projection
    non-empty whenever they succeed. *)
Lemma OptionsSucceed_Environment (w : World) (opts : list Option) (c c' : Config) :
  Forall (PackageOption w) opts ->
  OptionsSucceed opts c c' ->
  Environment (configStruct c) <> "" ->
  Environment (configStruct c') <> "".
Proof.
  intros Hall Hrun. induction Hrun as [c|opt rest c c1 c' Hopt Hrun IH]; [auto|].
  inversion Hall as [|? ? Hpkg Hrest]; subst. intros Hc. apply IH; [exact Hrest|].
  destruct Hpkg as [path|defaults|prefix].
  - exact (WithFilepath_success_Environment w path c c1 Hopt).
  - injection Hopt as <-. exact Hc.
  - exact (WithEnv_success_Environment w prefix c c1 Hopt).
Qed.

(** X1: whatever options of the package [New] is given, the store it returns
    has a non-empty [Environment] in its projection: the required field is
    never left at its zero value by a successful construction. *)
Theorem New_required_field_set (w : World) (opts : list Option) (c : Config) :
  Forall (PackageOption w) opts ->
  New opts = (Some c, None) ->
  Environment (GetConfigStruct c) <> "".
Proof.
  intros Hall Hnew.
  destruct (New_applyOptions opts) as (_ & _ & Heq). rewrite Heq in Hnew.
  destruct (applyOptions_outcome opts defaultedConfig)
    as [(c' & Hrun & Hok) | (err & Hrun & _)]; [|congruence].
  rewrite Hrun in Hnew. injection Hnew as <-.
  apply (OptionsSucceed_Environment w opts defaultedConfig c' Hall Hok).
  discriminate.
Qed.

Lemma New_required_field_set_production :
  Environment
    (GetConfigStruct
       (fst (WithFilepath (worldWith productionTree []) "config.yaml" defaultedConfig)))
  <> "".
Proof.
  apply (New_required_field_set (worldWith productionTree [])
           [WithFilepath (worldWith productionTree []) "config.yaml"]).
  - repeat constructor.
  - vm_compute. reflexivity.
Defined.

(** ** The file option *)

(** The extension of [config.YAML] is none of the three, and yet the file
    option does not fail: the extension is compared in lower case. *)
Lemma WithFilepath_upper_case_extension :
  ~ (forall (w : World) (path : string) (c : Config),
       ~ In (Ext path) [".yaml"; ".yml"; ".json"] ->
       snd (WithFilepath w path c) = Some (ErrUnsupportedFormat path)).
Proof.
  intros H.
  specialize (H upperCaseWorld "config.YAML" defaultedConfig).
  assert (Hext : ~ In (Ext "config.YAML") [".yaml"; ".yml"; ".json"]).
  { vm_compute. intros [E|[E|[E|[]]]]; discriminate E. }
  specialize (H Hext). vm_compute in H. discriminate H.
Qed.

(** C5, amended: for every path whose extension, put in lower case, is not
    .yaml, .yml or .json, the file option fails with the unsupported-format
    error that names the path and leaves the store as it was, whatever the
    file system holds. *)
Theorem WithFilepath_unsupported_format (w : World) (path : string) (c : Config) :
  ~ In (ToLower (Ext path)) [".yaml"; ".yml"; ".json"] ->
  WithFilepath w path c = (c, Some (ErrUnsupportedFormat path))
  /\ forall w' : World, WithFilepath w' path c = WithFilepath w path c.
Proof.
  intros Hext.
  assert (Hgen : forall w0 : World, WithFilepath w0 path c = (c, Some (ErrUnsupportedFormat path))).
  { intros w0. unfold WithFilepath.
    destruct (String.eqb_spec (ToLower (Ext path)) ".yaml") as [E|_];
      [exfalso; apply Hext; rewrite E; simpl; auto|].
    destruct (String.eqb_spec (ToLower (Ext path)) ".yml") as [E|_];
      [exfalso; apply Hext; rewrite E; simpl; auto|].
    destruct (String.eqb_spec (ToLower (Ext path)) ".json") as [E|_];
      [exfalso; apply Hext; rewrite E; simpl; auto|].
    reflexivity. }
  split; [apply Hgen|]. intros w'. rewrite !Hgen. reflexivity.
Qed.

Lemma WithFilepath_unsupported_format_txt :
  WithFilepath emptyWorld "config.txt" defaultedConfig
    = (defaultedConfig, Some (ErrUnsupportedFormat "config.txt"))
  /\ forall w' : World,
       WithFilepath w' "config.txt" defaultedConfig
       = WithFilepath emptyWorld "config.txt" defaultedConfig.
Proof.
  apply (WithFilepath_unsupported_format emptyWorld "config.txt" defaultedConfig).
  vm_compute. intros [E|[E|[E|[]]]]; discriminate E.
Defined.

(** ** The default-values option *)

(** C2 (the code departs from it): [WithDefault] writes to the tree and
    returns; unlike the file and the environment option it neither decodes
    the tree into the projection nor validates.  After
    [New(WithDefault({environment: staging}))] the tree answers "staging"
    while [GetConfigStruct] still shows the struct-tag default
    "development". *)
Theorem WithDefault_leaves_projection (defaults : list (string * Value)) (c : Config) :
  configStruct (fst (WithDefault defaults c)) = configStruct c
  /\ snd (WithDefault defaults c) = None
  /\ exists c', New [WithDefault [("environment", VString "staging")]] = (Some c', None)
       /\ (forall w : World, Get w c' "environment" = VString "staging")
       /\ Environment (GetConfigStruct c') = "development".
Proof.
  split; [reflexivity | split; [reflexivity|]].
  eexists. split; [vm_compute; reflexivity|].
  split; [intros w; vm_compute; reflexivity | reflexivity].
Qed.

(** ** Boolean lookups *)


(** ** Precedence between the environment and the file *)

(** In a store with automatic environment lookup on, a variable that is set
    for a key answers the lookup whatever the config-file layer holds. *)
Lemma Get_environment_first (w : World) (vp : Viper) (key val : string)
    (tree : gmap string Value) :
  automaticEnvApplied vp = true ->
  viper.getEnv w vp (viper.mergeWithEnvPrefix vp (ToLower key)) = Some val ->
  viper.Get w (viper.setConfig vp tree) key = VString val.
Proof.
  intros Hauto Henv. unfold viper.Get, viper.find.
  change (automaticEnvApplied (viper.setConfig vp tree)) with (automaticEnvApplied vp).
  change (viper.getEnv w (viper.setConfig vp tree)) with (viper.getEnv w vp).
  change (viper.mergeWithEnvPrefix (viper.setConfig vp tree))
    with (viper.mergeWithEnvPrefix vp).
  rewrite Hauto, Henv. reflexivity.
Qed.

(** C1 (the code departs from it): a file option that follows a default
    option overrides it ([environment] is "production"), but a file option
    that follows an environment option does not override a variable that is
    set: with [CONFIG_ENVIRONMENT=testing] and a file that says
    [environment: production], [New(WithEnv("CONFIG"), WithFilepath(file))]
    yields "testing", in the tree and in the projection.  viper looks a key
    up in the environment before the config file, in whatever order the
    options ran. *)
Theorem file_after_env_keeps_env_value :
  (exists c,
     New [WithDefault [("environment", VString "staging")];
          WithFilepath (worldWith productionTree []) "config.yaml"] = (Some c, None)
     /\ Get (worldWith productionTree []) c "environment" = VString "production"
     /\ Environment (GetConfigStruct c) = "production")
  /\ (exists c,
        New [WithEnv envFileWorld "CONFIG"; WithFilepath envFileWorld "config.yaml"]
          = (Some c, None)
        /\ Get envFileWorld c "environment" = VString "testing"
        /\ GetStringWithDefault envFileWorld c "environment" "default" = "testing"
        /\ Environment (GetConfigStruct c) = "testing"
        /\ viper.searchMap (config (v c)) ["environment"] = VString "production")
  /\ (forall (w : World) (vp : Viper) (key val : string) (tree : gmap string Value),
        automaticEnvApplied vp = true ->
        viper.getEnv w vp (viper.mergeWithEnvPrefix vp (ToLower key)) = Some val ->
        viper.Get w (viper.setConfig vp tree) key = VString val).
Proof.
  split; [|split].
  - eexists. split; [vm_compute; reflexivity|]. split; vm_compute; reflexivity.
  - eexists. split; [vm_compute; reflexivity|]. repeat split; vm_compute; reflexivity.
  - exact Get_environment_first.
Qed.

(** ** The environment option *)

(** Every option keeps or rebuilds the projection; the environment option
    leaves a viper instance that depends on the prefix and on the instance
    it found only. *)
Lemma unmarshalConfigStruct_v (w : World) (c : Config) :
  v (fst (unmarshalConfigStruct w c)) = v c.
Proof.
  unfold unmarshalConfigStruct.
  destruct (fst (viper.Unmarshal w (v c) (Pointer (GStruct (reflectValueOf (configStruct c))))))
    as [x| |[s|b|m|fields]]; reflexivity.
Qed.

Lemma WithEnv_v (w : World) (prefix : string) (c : Config) :
  v (fst (WithEnv w prefix c)) =
  bindEnvKeys prefix
    (viper.AutomaticEnv
       (viper.SetEnvKeyReplacer (viper.SetEnvPrefix (v c) (ToUpper prefix)) "." "_")).
Proof.
  unfold WithEnv.
  match goal with
  | |- context [unmarshalConfigStruct w ?c1] =>
      pose proof (unmarshalConfigStruct_v w c1) as Hv;
      destruct (unmarshalConfigStruct w c1) as [c2 [err|]]
  end; simpl in *; exact Hv.
Qed.

Lemma find_environment_silent (w : World) (vp : Viper) (lcaseKey : string) :
  (if automaticEnvApplied vp
   then viper.getEnv w vp (viper.mergeWithEnvPrefix vp lcaseKey) else None) = None ->
  automaticEnvApplied vp && (1 <? length (Split "." lcaseKey))%nat
    && negb (String.eqb (viper.isPathShadowedInAutoEnv w vp (Split "." lcaseKey)) "") = false ->
  viper.firstBound w vp (default [] (env vp !! lcaseKey)) = None ->
  viper.find w vp lcaseKey = findBelowEnv vp lcaseKey.
Proof.
  intros Hauto Hshadow Hbound. unfold viper.find, findBelowEnv.
  rewrite Hauto, Hshadow, Hbound. reflexivity.
Qed.

(** The variables of the bound keys are all unset and the default for
    [app.name] is there before the option runs; after it the key is gone,
    shadowed by the variable of its parent path [app]. *)
Lemma WithEnv_parent_variable_shadows :
  ~ (forall (w : World) (c c' : Config),
       WithEnv w "CONFIG" c = (c', None) ->
       forall key, In key envKeys ->
         LookupEnv w (boundVariable "CONFIG" key) = None ->
         Get w c' key = Get w c key).
Proof.
  intros H.
  pose (c := fst (WithDefault [("app.name", VString "default-app")] defaultedConfig)).
  pose (c' := fst (WithEnv parentVariableWorld "CONFIG" c)).
  specialize (H parentVariableWorld c c').
  assert (Hrun : WithEnv parentVariableWorld "CONFIG" c = (c', None)) by (vm_compute; reflexivity).
  specialize (H Hrun "app.name").
  assert (Hin : In "app.name" envKeys) by (simpl; auto).
  specialize (H Hin eq_refl).
  vm_compute in H. discriminate H.
Qed.

(** The instance the environment option with prefix CONFIG leaves. *)
Lemma WithEnv_CONFIG_v (vp : Viper) :
  bindEnvKeys "CONFIG"
    (viper.AutomaticEnv
       (viper.SetEnvKeyReplacer (viper.SetEnvPrefix vp (ToUpper "CONFIG")) "." "_"))
  = {| configFile := configFile vp; configType := configType vp;
       envPrefix := "CONFIG"; envKeyReplacer := Some ("."%char, "_"%char);
       automaticEnvApplied := true;
       env := env (bindEnvKeys "CONFIG" vp);
       config := config vp; defaults := defaults vp |}.
Proof. destruct vp. reflexivity. Qed.

Lemma bindEnvKeys_fresh (vp : Viper) (key : string) :
  env vp = ∅ -> In key envKeys ->
  env (bindEnvKeys "CONFIG" vp) !! key = Some [boundVariable "CONFIG" key].
Proof.
  destruct vp as [cf ct ep er au en cfg dfl]. simpl. intros -> Hin.
  destruct Hin as [<-|[<-|[<-|[<-|[]]]]]; vm_compute; reflexivity.
Qed.

Lemma find_environment_set (w : World) (vp : Viper) (lcaseKey val : string) :
  automaticEnvApplied vp = true ->
  viper.getEnv w vp (viper.mergeWithEnvPrefix vp lcaseKey) = Some val ->
  viper.find w vp lcaseKey = VString val.
Proof. intros Hauto Hset. unfold viper.find. rewrite Hauto, Hset. reflexivity. Qed.

Lemma findBelowEnv_layers (vp vp' : Viper) (lcaseKey : string) :
  config vp' = config vp -> defaults vp' = defaults vp ->
  findBelowEnv vp' lcaseKey = findBelowEnv vp lcaseKey.
Proof. unfold findBelowEnv. intros -> ->. reflexivity. Qed.

(** Closed names inside environment lookups are computed. *)
Ltac compute_variable_names w :=
  repeat match goal with
         | |- context [LookupEnv w ?x] =>
             let y := eval vm_compute in x in progress change x with y
         end.

Ltac compute_variable_name_in w H :=
  match type of H with
  | context [LookupEnv w ?x] =>
      let y := eval vm_compute in x in change x with y in H
  end.

(** C6, amended: let the environment option with prefix CONFIG succeed on a
    store.  If [CONFIG_APP_NAME] is set to "env-app" then
    [GetStringWithDefault("app.name", "default")] returns "env-app".  And if
    no environment option was applied to the store before, then for every
    bound key whose variable is unset, and for [app.name] and [app.port]
    provided [CONFIG_APP] is unset too, [Get] returns after the option what
    it returned before. *)
Theorem WithEnv_CONFIG_set_and_unset (w : World) (c c' : Config) :
  WithEnv w "CONFIG" c = (c', None) ->
  (LookupEnv w "CONFIG_APP_NAME" = Some "env-app" ->
   GetStringWithDefault w c' "app.name" "default" = "env-app")
  /\ (automaticEnvApplied (v c) = false -> env (v c) = ∅ ->
      forall key, In key envKeys ->
        LookupEnv w (boundVariable "CONFIG" key) = None ->
        (key = "app.name" \/ key = "app.port" -> LookupEnv w "CONFIG_APP" = None) ->
        Get w c' key = Get w c key).
Proof.
  intros Hrun.
  assert (Hv : v c' = bindEnvKeys "CONFIG"
                 (viper.AutomaticEnv
                    (viper.SetEnvKeyReplacer (viper.SetEnvPrefix (v c) (ToUpper "CONFIG")) "." "_"))).
  { rewrite <- (WithEnv_v w "CONFIG" c), Hrun. reflexivity. }
  rewrite WithEnv_CONFIG_v in Hv. clear Hrun.
  split.
  - intros Hset.
    assert (Hfind : viper.find w (v c') "app.name" = VString "env-app").
    { apply find_environment_set; rewrite Hv; [reflexivity|].
      unfold viper.getEnv, viper.mergeWithEnvPrefix. cbn [envKeyReplacer envPrefix].
      compute_variable_names w. rewrite Hset. reflexivity. }
    unfold GetStringWithDefault, viper.IsSet, viper.GetString, viper.Get.
    change (ToLower "app.name") with "app.name". rewrite Hfind. reflexivity.
  - intros Hauto Henv key Hin Hunset Hparent.
    assert (Hkey : ToLower key = key).
    { simpl in Hin. destruct Hin as [<-|[<-|[<-|[<-|[]]]]]; reflexivity. }
    assert (Hbound : env (v c') !! key = Some [boundVariable "CONFIG" key]).
    { rewrite Hv. cbn [env]. apply bindEnvKeys_fresh; assumption. }
    unfold Get, viper.Get. rewrite Hkey.
    rewrite (find_environment_silent w (v c)).
    2:{ rewrite Hauto. reflexivity. }
    2:{ rewrite Hauto. reflexivity. }
    2:{ rewrite Henv, lookup_empty. reflexivity. }
    rewrite (find_environment_silent w (v c')).
    + apply findBelowEnv_layers; rewrite Hv; reflexivity.
    + rewrite Hv. cbn [automaticEnvApplied].
      unfold viper.getEnv, viper.mergeWithEnvPrefix. cbn [envKeyReplacer envPrefix].
      simpl in Hin. destruct Hin as [<-|[<-|[<-|[<-|[]]]]];
        compute_variable_names w; compute_variable_name_in w Hunset;
        rewrite Hunset; reflexivity.
    + rewrite Hv. cbn [automaticEnvApplied].
      simpl in Hin. destruct Hin as [<-|[<-|[<-|[<-|[]]]]]; [reflexivity | reflexivity | |].
      * specialize (Hparent (or_introl eq_refl)).
        change (Split "." "app.name") with ["app"; "name"].
        unfold viper.isPathShadowedInAutoEnv, viper.getEnv, viper.mergeWithEnvPrefix.
        cbn [envKeyReplacer envPrefix length Nat.sub take Join].
        compute_variable_names w. rewrite Hparent. reflexivity.
      * specialize (Hparent (or_intror eq_refl)).
        change (Split "." "app.port") with ["app"; "port"].
        unfold viper.isPathShadowedInAutoEnv, viper.getEnv, viper.mergeWithEnvPrefix.
        cbn [envKeyReplacer envPrefix length Nat.sub take Join].
        compute_variable_names w. rewrite Hparent. reflexivity.
    + rewrite Hbound, Hv. cbn [default from_option id viper.firstBound].
      unfold viper.getEnv. cbn [envKeyReplacer].
      simpl in Hin. destruct Hin as [<-|[<-|[<-|[<-|[]]]]];
        compute_variable_names w; compute_variable_name_in w Hunset;
        rewrite Hunset; reflexivity.
Qed.

(** ** Unmarshal *)


Lemma decode_struct (name : string) (data : gmap string Value)
    (fields : list (StructField * GoValue)) :
  mapstructure.decode name (VMap data) (GStruct fields) =
  (GStruct ((fun fx => (fst fx, fst (decodeField name data fx))) <$> fields),
   concat ((fun fx => snd (decodeField name data fx)) <$> fields)).
Proof.
  simpl. f_equal.
  - f_equal. induction fields as [|[f y] fs IH]; simpl; [reflexivity|].
    f_equal. exact IH.
  - induction fields as [|[f y] fs IH]; simpl; [reflexivity|].
    f_equal. exact IH.
Qed.








Lemma WithEnv_CONFIG_app_name :
  GetStringWithDefault appNameWorld
    (fst (WithEnv appNameWorld "CONFIG" appDefaultsConfig)) "app.name" "default" = "env-app"
  /\ Get appNameWorld (fst (WithEnv appNameWorld "CONFIG" appDefaultsConfig)) "app.port"
     = Get appNameWorld appDefaultsConfig "app.port"
  /\ Get appNameWorld (fst (WithEnv appNameWorld "CONFIG" appDefaultsConfig)) "debug"
     = Get appNameWorld appDefaultsConfig "debug".
Proof.
  destruct (WithEnv_CONFIG_set_and_unset appNameWorld appDefaultsConfig
              (fst (WithEnv appNameWorld "CONFIG" appDefaultsConfig)))
    as [Hset Hunset].
  - vm_compute. reflexivity.
  - split; [apply Hset; reflexivity|].
    split; apply Hunset; try reflexivity; simpl; auto; intros [E|E]; discriminate E.
Defined.

(** * Further properties *)

(** ** Strings *)



Lemma Split_not_nil (sep : ascii) (s : string) : Split sep s <> [].
Proof.
  induction s as [|c s IH]; simpl; [discriminate|].
  destruct (Ascii.eqb c sep); [discriminate|].
  destruct (Split sep s); discriminate.
Qed.



(** ** Searching and storing along a path *)

Lemma searchMap_empty (k : string) (rest : list string) :
  viper.searchMap ∅ (k :: rest) = VNil.
Proof. simpl. rewrite lookup_empty. reflexivity. Qed.

Lemma searchIndexable_empty (fuel : nat) (path : list string) :
  path <> [] -> viper.searchIndexableWithPathPrefixes fuel ∅ path = VNil.
Proof.
  intros Hpath. destruct path as [|k rest]; [congruence|].
  destruct fuel as [|fuel]; [reflexivity|].
  cbn [viper.searchIndexableWithPathPrefixes].
  match goal with
  | |- ?F (length (k :: rest)) = VNil => assert (Hall : forall n, F n = VNil)
  end.
  { induction n as [|n IH]; [reflexivity|].
    rewrite lookup_empty. cbn [isNil]. exact IH. }
  apply Hall.
Qed.

Lemma isPathShadowedInDeepMap_empty (path : list string) :
  viper.isPathShadowedInDeepMap path ∅ = "".
Proof.
  unfold viper.isPathShadowedInDeepMap.
  destruct path as [|k rest]; [reflexivity|].
  destruct (length (k :: rest) - 1)%nat as [|n]; [reflexivity|].
  cbn [take]. rewrite searchMap_empty. reflexivity.
Qed.

(** A store with nothing from the environment and no config file answers
    from the defaults alone. *)
Lemma find_defaults_only (w : World) (vp : Viper) (lcaseKey : string) :
  automaticEnvApplied vp = false -> env vp = ∅ -> config vp = ∅ ->
  viper.find w vp lcaseKey = viper.searchMap (defaults vp) (Split "." lcaseKey).
Proof.
  intros Hauto Henv Hconfig. unfold viper.find.
  rewrite Hauto, Henv, Hconfig, lookup_empty. cbn [default from_option id viper.firstBound andb].
  rewrite searchIndexable_empty by apply Split_not_nil.
  rewrite isPathShadowedInDeepMap_empty. cbn [isNil negb].
  rewrite andb_false_r. reflexivity.
Qed.






(** ** Stores built from defaults *)


(** X4: the store that [New] returns when it is given no options has an
    empty tree.  For every key and every environment [Get] is nil,
    [GetStringWithDefault] returns the fallback, [GetBool] is false and
    [GetStringMapString] is empty: the struct-tag defaults of the
    projection cannot be read through the accessors. *)
Theorem New_tree_is_empty (json : string -> gmap string string) (w : World)
    (key fallback : string) :
  exists c, New [] = (Some c, None)
    /\ Get w c key = VNil
    /\ GetStringWithDefault w c key fallback = fallback
    /\ GetBool w c key = false
    /\ GetStringMapString json w c key = ∅.
Proof.
  exists defaultedConfig. split; [reflexivity|].
  assert (Hfind : viper.find w (v defaultedConfig) (ToLower key) = VNil).
  { rewrite find_defaults_only by reflexivity.
    destruct (Split "." (ToLower key)) as [|k rest] eqn:Hs.
    - exfalso. exact (Split_not_nil _ _ Hs).
    - apply searchMap_empty. }
  unfold Get, GetStringWithDefault, GetBool, GetStringMapString,
    viper.GetStringMapString, viper.GetBool, viper.IsSet, viper.Get.
  rewrite Hfind. repeat split.
Qed.








(** ** The viper instance after each option *)

Lemma WithFilepath_v (w : World) (path : string) (c : Config) :
  v (fst (WithFilepath w path c)) = afterFile w path (v c).
Proof.
  unfold WithFilepath, afterFile.
  destruct (if String.eqb (ToLower (Ext path)) ".yaml" || String.eqb (ToLower (Ext path)) ".yml"
            then Some "yaml"
            else if String.eqb (ToLower (Ext path)) ".json" then Some "json" else None)
    as [ty|]; [|reflexivity].
  cbv zeta.
  destruct (viper.ReadInConfig w _) as [vp' [err|]]; cbn [fst snd]; [reflexivity|].
  match goal with
  | |- context [unmarshalConfigStruct w ?c1] =>
      pose proof (unmarshalConfigStruct_v w c1) as Hv;
      destruct (unmarshalConfigStruct w c1) as [c2 [err|]]
  end; exact Hv.
Qed.

Lemma WithDefault_v (defaults0 : list (string * Value)) (c : Config) :
  v (fst (WithDefault defaults0 c)) =
  viper.setDefaults (v c) (storeDefaults defaults0 (defaults (v c))).
Proof.
  unfold WithDefault, storeDefaults. cbn [fst v].
  generalize (v c) as vp. induction defaults0 as [|kv rest IH]; intros vp.
  - destruct vp; reflexivity.
  - cbn [foldl]. rewrite IH. destruct vp; reflexivity.
Qed.

Lemma afterFile_explicit (w : World) (path : string) (vp : Viper) :
  afterFile w path vp =
  match fileType path with
  | None => vp
  | Some ty =>
      let type := if String.eqb ty "" then configType vp else ty in
      let file := if String.eqb path "" then configFile vp else path in
      {| configFile := file; configType := type;
         envPrefix := envPrefix vp; envKeyReplacer := envKeyReplacer vp;
         automaticEnvApplied := automaticEnvApplied vp; env := env vp;
         config := readLayer w file type (config vp); defaults := defaults vp |}
  end.
Proof.
  unfold afterFile, fileType. destruct vp as [cf ct ep er au en cfg dfl].
  destruct (if String.eqb (ToLower (Ext path)) ".yaml" || String.eqb (ToLower (Ext path)) ".yml"
            then Some "yaml"
            else if String.eqb (ToLower (Ext path)) ".json" then Some "json" else None)
    as [ty|]; [|reflexivity].
  unfold viper.ReadInConfig, viper.SetConfigFile, viper.SetConfigType, readLayer.
  cbv zeta. cbn [configFile configType config].
  destruct (String.eqb ty ""), (String.eqb path ""); cbn [configFile configType config];
    repeat match goal with
           | |- context [existsb ?f viper.SupportedExts] => destruct (existsb f viper.SupportedExts)
           | |- context [ReadFile w ?p] => destruct (ReadFile w p)
           | |- context [Codec w ?t ?b] => destruct (Codec w t b)
           end; reflexivity.
Qed.

Lemma afterEnv_explicit (prefix : string) (vp : Viper) :
  afterEnv prefix vp =
  {| configFile := configFile vp; configType := configType vp;
     envPrefix := if String.eqb (ToUpper prefix) "" then envPrefix vp else ToUpper prefix;
     envKeyReplacer := Some ("."%char, "_"%char);
     automaticEnvApplied := true;
     env := bindAll prefix (env vp);
     config := config vp; defaults := defaults vp |}.
Proof.
  unfold afterEnv, viper.SetEnvPrefix. destruct vp as [cf ct ep er au en cfg dfl].
  destruct (String.eqb (ToUpper prefix) ""); reflexivity.
Qed.

Lemma setDefaults_explicit (vp : Viper) (d : gmap string Value) :
  viper.setDefaults vp d =
  {| configFile := configFile vp; configType := configType vp;
     envPrefix := envPrefix vp; envKeyReplacer := envKeyReplacer vp;
     automaticEnvApplied := automaticEnvApplied vp; env := env vp;
     config := config vp; defaults := d |}.
Proof. reflexivity. Qed.

Lemma WithEnv_afterEnv (w : World) (prefix : string) (c : Config) :
  v (fst (WithEnv w prefix c)) = afterEnv prefix (v c).
Proof. apply WithEnv_v. Qed.

(** X7: options of different kinds commute on the viper instance of the
    store: a file option and a default option, an environment option and a
    default option, an environment option and a file option leave the same
    instance in either order, whether or not they succeed.  Only the
    projection can depend on the order. *)
Theorem options_commute_on_viper (w : World) (c : Config) (path prefix : string)
    (defaults0 : list (string * Value)) :
  v (fst (WithFilepath w path (fst (WithDefault defaults0 c))))
    = v (fst (WithDefault defaults0 (fst (WithFilepath w path c))))
  /\ v (fst (WithEnv w prefix (fst (WithDefault defaults0 c))))
     = v (fst (WithDefault defaults0 (fst (WithEnv w prefix c))))
  /\ v (fst (WithEnv w prefix (fst (WithFilepath w path c))))
     = v (fst (WithFilepath w path (fst (WithEnv w prefix c)))).
Proof.
  rewrite !WithFilepath_v, !WithDefault_v, !WithEnv_afterEnv, !WithFilepath_v, !WithDefault_v.
  rewrite !afterFile_explicit, !afterEnv_explicit, !setDefaults_explicit.
  destruct (fileType path) as [ty|]; cbv zeta;
    cbn [configFile configType envPrefix envKeyReplacer automaticEnvApplied env config defaults];
    rewrite ?afterEnv_explicit, ?setDefaults_explicit;
    cbn [configFile configType envPrefix envKeyReplacer automaticEnvApplied env config defaults];
    repeat split.
Qed.

(** ** Reading the file *)

Lemma WithFilepath_unfold (w : World) (path : string) (c : Config) :
  WithFilepath w path c =
  match fileType path with
  | None => (c, Some (ErrUnsupportedFormat path))
  | Some ty =>
      let r := viper.ReadInConfig w (viper.SetConfigFile (viper.SetConfigType (v c) ty) path) in
      let c1 := {| v := fst r; configStruct := configStruct c |} in
      match snd r with
      | Some err => (c1, Some (ErrReadConfig path err))
      | None =>
          let u := unmarshalConfigStruct w c1 in
          match snd u with
          | Some err => (fst u, Some (ErrUnmarshalConfigStruct err))
          | None => (fst u, validateRequiredFields (fst u))
          end
      end
  end.
Proof. reflexivity. Qed.

(** A path the file option accepts is not empty, and the type it sets is
    one viper supports and is in lower case already. *)
Lemma fileType_Some (path ty : string) :
  fileType path = Some ty ->
  path <> "" /\ (ty = "yaml" \/ ty = "json").
Proof.
  unfold fileType. intros H. split.
  - intros ->. vm_compute in H. discriminate H.
  - destruct (String.eqb (ToLower (Ext path)) ".yaml" || String.eqb (ToLower (Ext path)) ".yml");
      [injection H as <-; auto|].
    destruct (String.eqb (ToLower (Ext path)) ".json"); [injection H as <-; auto | discriminate].
Qed.

Lemma ReadInConfig_accepted (w : World) (vp : Viper) (path ty : string) :
  fileType path = Some ty ->
  viper.ReadInConfig w (viper.SetConfigFile (viper.SetConfigType vp ty) path) =
  let vp1 := viper.SetConfigFile (viper.SetConfigType vp ty) path in
  match ReadFile w path with
  | None => (vp1, Some (FileReadError path))
  | Some bytes =>
      match Codec w ty bytes with
      | None => (vp1, Some ConfigParseError)
      | Some tree => (viper.setConfig vp1 (viper.insensitiviseMap tree), None)
      end
  end.
Proof.
  intros Hty. destruct (fileType_Some path ty Hty) as [Hpath Hcases].
  apply String.eqb_neq in Hpath.
  unfold viper.ReadInConfig, viper.SetConfigFile, viper.SetConfigType.
  rewrite Hpath. destruct vp as [cf ct ep er au en cfg dfl].
  destruct Hcases as [-> | ->]; reflexivity.
Qed.

(** X8: for a path with an accepted extension, a file that cannot be read
    makes the file option fail with a read error that wraps the file
    error, and a file that does not parse with one that wraps the parse
    error.  In both cases the projection, the config layer and the
    defaults of the store are as before, and [New] with that option
    returns no store and a read error for the path. *)
Theorem WithFilepath_read_failure (w : World) (path ty : string) (c : Config) :
  fileType path = Some ty ->
  (ReadFile w path = None ->
   snd (WithFilepath w path c) = Some (ErrReadConfig path (FileReadError path)))
  /\ (forall bytes, ReadFile w path = Some bytes -> Codec w ty bytes = None ->
      snd (WithFilepath w path c) = Some (ErrReadConfig path ConfigParseError))
  /\ (ReadFile w path = None
      \/ (exists bytes, ReadFile w path = Some bytes /\ Codec w ty bytes = None) ->
      configStruct (fst (WithFilepath w path c)) = configStruct c
      /\ config (v (fst (WithFilepath w path c))) = config (v c)
      /\ defaults (v (fst (WithFilepath w path c))) = defaults (v c)
      /\ exists err, New [WithFilepath w path] = (None, Some (ErrReadConfig path err))).
Proof.
  intros Hty.
  assert (Hmiss : ReadFile w path = None -> forall c0, WithFilepath w path c0 =
            ({| v := viper.SetConfigFile (viper.SetConfigType (v c0) ty) path;
                configStruct := configStruct c0 |},
             Some (ErrReadConfig path (FileReadError path)))).
  { intros Hread c0. rewrite WithFilepath_unfold, Hty. cbv zeta.
    rewrite (ReadInConfig_accepted w (v c0) path ty Hty). cbv zeta.
    rewrite Hread. reflexivity. }
  assert (Hbad : forall bytes, ReadFile w path = Some bytes -> Codec w ty bytes = None ->
            forall c0, WithFilepath w path c0 =
            ({| v := viper.SetConfigFile (viper.SetConfigType (v c0) ty) path;
                configStruct := configStruct c0 |},
             Some (ErrReadConfig path ConfigParseError))).
  { intros bytes Hread Hparse c0. rewrite WithFilepath_unfold, Hty. cbv zeta.
    rewrite (ReadInConfig_accepted w (v c0) path ty Hty). cbv zeta.
    rewrite Hread, Hparse. reflexivity. }
  assert (Hkeep : forall vp, config (viper.SetConfigFile (viper.SetConfigType vp ty) path) = config vp
                          /\ defaults (viper.SetConfigFile (viper.SetConfigType vp ty) path) = defaults vp).
  { intros vp. unfold viper.SetConfigFile, viper.SetConfigType. destruct vp.
    destruct (String.eqb ty ""), (String.eqb path ""); split; reflexivity. }
  split; [|split].
  - intros Hread. rewrite (Hmiss Hread). reflexivity.
  - intros bytes Hread Hparse. rewrite (Hbad bytes Hread Hparse). reflexivity.
  - intros Hfail.
    assert (Hshape : exists err,
               WithFilepath w path c
               = ({| v := viper.SetConfigFile (viper.SetConfigType (v c) ty) path;
                     configStruct := configStruct c |}, Some (ErrReadConfig path err))
               /\ snd (WithFilepath w path defaultedConfig) = Some (ErrReadConfig path err)).
    { destruct Hfail as [Hread | (bytes & Hread & Hparse)].
      - exists (FileReadError path). rewrite !(Hmiss Hread). split; reflexivity.
      - exists ConfigParseError. rewrite !(Hbad bytes Hread Hparse). split; reflexivity. }
    destruct Hshape as (err & -> & Hnew). cbn [fst v configStruct].
    destruct (Hkeep (v c)) as [-> ->]. repeat split.
    exists err. destruct (New_applyOptions [WithFilepath w path]) as (_ & _ & ->).
    cbn [applyOptions]. rewrite Hnew. reflexivity.
Qed.




(** ** The projection after an option has decoded the tree *)

Lemma unmarshalConfigStruct_fields (w : World) (c : Config) :
  let tree := viper.AllSettings w (v c) in
  let c' := fst (unmarshalConfigStruct w c) in
  v c' = v c
  /\ Environment (configStruct c')
     = decodedString (Environment (configStruct c)) (mapstructure.lookupField tree "environment")
  /\ Debug (configStruct c')
     = decodedBool (Debug (configStruct c)) (mapstructure.lookupField tree "debug")
  /\ (mapstructure.lookupField tree "settings" = None ->
      Settings (configStruct c') = Settings (configStruct c)).
Proof.
  cbv zeta. split; [apply unmarshalConfigStruct_v|].
  unfold unmarshalConfigStruct, viper.Unmarshal, mapstructure.Decode. cbn [fst snd].
  rewrite decode_struct. cbn [fst]. unfold reflectValueOf.
  cbn [fmap list_fmap storeFields fst snd]. unfold decodeField. cbn [fst snd String.eqb].
  change (mapstructure.fieldKey fieldEnvironment) with "environment".
  change (mapstructure.fieldKey fieldDebug) with "debug".
  change (mapstructure.fieldKey fieldSettings) with "settings".
  destruct (mapstructure.lookupField (viper.AllSettings w (v c)) "environment") as [e|];
  destruct (mapstructure.lookupField (viper.AllSettings w (v c)) "debug") as [d|];
  destruct (mapstructure.lookupField (viper.AllSettings w (v c)) "settings") as [s|].
  all: try destruct e as [|es|eb|ez|em]; try destruct d as [|ds|db|dz|dm];
    try destruct s as [|ss|sb|sz|sm]; cbn.
  all: repeat match goal with
              | |- context [ParseBool ?x] => destruct (ParseBool x)
              | |- context [String.eqb ?x ""] => destruct (String.eqb x "")
              end; cbn; repeat split; intros; try discriminate; reflexivity.
Qed.




(** X11: a file with an accepted extension that parses to an empty tree
    is accepted by [New]: the projection keeps the struct-tag defaults, and
    [Get] is nil for every key. *)
Theorem WithFilepath_empty_file (w : World) (path ty bytes : string) :
  fileType path = Some ty -> ReadFile w path = Some bytes -> Codec w ty bytes = Some ∅ ->
  exists c, New [WithFilepath w path] = (Some c, None)
    /\ GetConfigStruct c = GetConfigStruct defaultedConfig
    /\ forall key, Get w c key = VNil.
Proof.
  intros Hty Hread Hparse.
  pose (vp := {| configFile := path; configType := ty; envPrefix := "";
                 envKeyReplacer := None; automaticEnvApplied := false; env := ∅;
                 config := ∅; defaults := ∅ |}).
  assert (Hread' : viper.ReadInConfig w
                     (viper.SetConfigFile (viper.SetConfigType (v defaultedConfig) ty) path)
                   = (vp, None)).
  { rewrite (ReadInConfig_accepted w _ path ty Hty). cbv zeta. rewrite Hread, Hparse.
    destruct (fileType_Some path ty Hty) as [Hpath Hcases].
    apply String.eqb_neq in Hpath.
    unfold viper.SetConfigFile, viper.SetConfigType. rewrite Hpath.
    destruct Hcases as [-> | ->]; reflexivity. }
  assert (Hsettings : viper.AllSettings w vp = ∅) by reflexivity.
  exists {| v := vp; configStruct := configStruct defaultedConfig |}.
  split; [|split; [reflexivity|]].
  - destruct (New_applyOptions [WithFilepath w path]) as (_ & _ & ->).
    cbn [applyOptions]. rewrite WithFilepath_unfold, Hty. cbv zeta. rewrite Hread'.
    cbn [fst snd]. unfold unmarshalConfigStruct, viper.Unmarshal. cbn [v].
    rewrite Hsettings. reflexivity.
  - intros key. unfold Get, viper.Get. rewrite find_defaults_only by reflexivity.
    destruct (Split "." (ToLower key)) as [|k rest] eqn:Hs.
    + exfalso. exact (Split_not_nil _ _ Hs).
    + apply searchMap_empty.
Qed.

(** ** Variables of the environment *)













(** ** What [Unmarshal] sees of the environment *)




Lemma AllKeys_fresh_env (prefix : string) :
  viper.AllKeys (afterEnv prefix viper.New)
  = ["environment"; "app.name"; "app.port"; "debug"].
Proof. rewrite afterEnv_explicit. vm_compute. reflexivity. Qed.

Lemma WithEnv_defaultedConfig_v (w : World) (prefix : string) :
  v (fst (WithEnv w prefix defaultedConfig)) = afterEnv prefix viper.New.
Proof. apply WithEnv_afterEnv. Qed.



(** ** A fresh store and the environment *)

Lemma getEnv_nonempty (w : World) (vp : Viper) (key val : string) :
  viper.getEnv w vp key = Some val -> val <> "".
Proof.
  unfold viper.getEnv. destruct (LookupEnv w _) as [x|]; [|discriminate].
  destruct (String.eqb_spec x "") as [|Hx]; [discriminate|]. intros [= <-]. exact Hx.
Qed.

Lemma firstBound_nonempty (w : World) (vp : Viper) (envkeys : list string) (val : string) :
  viper.firstBound w vp envkeys = Some val -> val <> "".
Proof.
  induction envkeys as [|k rest IH]; [discriminate|]. cbn [viper.firstBound].
  destruct (viper.getEnv w vp k) as [x|] eqn:Hk; [|exact IH].
  intros [= <-]. exact (getEnv_nonempty w vp k x Hk).
Qed.

(** With no config file and no defaults a key is unset or holds the
    non-empty string of a variable. *)
Lemma find_no_layers (w : World) (vp : Viper) (lcaseKey : string) :
  config vp = ∅ -> defaults vp = ∅ ->
  viper.find w vp lcaseKey = VNil
  \/ exists s, viper.find w vp lcaseKey = VString s /\ s <> "".
Proof.
  intros Hconfig Hdefaults. unfold viper.find. rewrite Hconfig, Hdefaults.
  destruct (if automaticEnvApplied vp then _ else None) as [val|] eqn:Hauto.
  - right. exists val. split; [reflexivity|].
    destruct (automaticEnvApplied vp); [|discriminate].
    exact (getEnv_nonempty _ _ _ _ Hauto).
  - destruct (_ && _ && _); [left; reflexivity|].
    destruct (viper.firstBound w vp _) as [val|] eqn:Hbound.
    + right. exists val. split; [reflexivity|]. exact (firstBound_nonempty _ _ _ _ Hbound).
    + left. rewrite searchIndexable_empty by apply Split_not_nil.
      rewrite isPathShadowedInDeepMap_empty. cbn [isNil negb].
      rewrite andb_false_r.
      destruct (Split "." lcaseKey) as [|k rest] eqn:Hs;
        [exfalso; exact (Split_not_nil _ _ Hs) | apply searchMap_empty].
Qed.

Lemma unmarshalConfigStruct_error (w : World) (c : Config) :
  snd (unmarshalConfigStruct w c)
  = match concat ((fun fx => snd (decodeField "" (viper.AllSettings w (v c)) fx))
                    <$> reflectValueOf (configStruct c)) with
    | [] => None
    | errs => Some (DecodeErrors errs)
    end.
Proof.
  unfold unmarshalConfigStruct, viper.Unmarshal, mapstructure.Decode. cbn [fst snd].
  rewrite decode_struct. reflexivity.
Qed.

(** The entries of the tree of a fresh store with the environment option
    that the projection reads. *)
Lemma AllSettings_fresh_env (w : World) (prefix : string) :
  let vp := afterEnv prefix viper.New in
  let tree := viper.AllSettings w vp in
  mapstructure.lookupField tree "environment"
    = (if isNil (viper.Get w vp "environment") then None
       else Some (viper.Get w vp "environment"))
  /\ mapstructure.lookupField tree "debug"
     = (if isNil (viper.Get w vp "debug") then None else Some (viper.Get w vp "debug"))
  /\ mapstructure.lookupField tree "settings" = None.
Proof.
  cbv zeta. unfold viper.AllSettings. rewrite AllKeys_fresh_env.
  unfold viper.getSettings. cbn [foldl].
  assert (Hlayers : forall k,
            viper.Get w (afterEnv prefix viper.New) k = VNil
            \/ exists s, viper.Get w (afterEnv prefix viper.New) k = VString s /\ s <> "").
  { intros k. apply find_no_layers; rewrite afterEnv_explicit; reflexivity. }
  destruct (Hlayers "environment") as [He | (se & He & _)];
  destruct (Hlayers "debug") as [Hd | (sd & Hd & _)];
  destruct (Hlayers "app.name") as [Hn | (sn & Hn & _)];
  destruct (Hlayers "app.port") as [Hp | (sp & Hp & _)];
  rewrite He, Hd, Hn, Hp; vm_compute; repeat split; reflexivity.
Qed.

(** X14: the outcome of [New] with one environment option, in every
    environment and for every prefix.  If the value [Get] finds for
    [debug] is a string that does not parse as a boolean, [New] returns no
    store and the decoding error of the field [debug].  Otherwise [New]
    returns the store, whose projection has [Environment] equal to the
    string found for [environment], or the default [development] when
    there is none, [Debug] equal to [GetBool] of [debug], and the empty
    [Settings] map. *)
Theorem New_WithEnv_outcome (w : World) (prefix : string) :
  let c := fst (WithEnv w prefix defaultedConfig) in
  (forall s, Get w c "debug" = VString s -> ParseBool s = None ->
     New [WithEnv w prefix] = (None, Some (ErrUnmarshalFromEnv (DecodeErrors ["debug"]))))
  /\ ((forall s, Get w c "debug" = VString s -> ParseBool s <> None) ->
      New [WithEnv w prefix] = (Some c, None)
      /\ Environment (GetConfigStruct c)
         = match Get w c "environment" with VString s => s | _ => "development" end
      /\ Debug (GetConfigStruct c) = GetBool w c "debug"
      /\ Settings (GetConfigStruct c) = Some ∅).
Proof.
  cbv zeta. unfold Get, GetBool, viper.GetBool, GetConfigStruct.
  rewrite WithEnv_defaultedConfig_v.
  destruct (New_applyOptions [WithEnv w prefix]) as (_ & _ & ->). cbn [applyOptions].
  pose (c1 := {| v := afterEnv prefix viper.New;
                 configStruct := configStruct defaultedConfig |}).
  assert (Hrun : WithEnv w prefix defaultedConfig
                 = match snd (unmarshalConfigStruct w c1) with
                   | Some err => (fst (unmarshalConfigStruct w c1), Some (ErrUnmarshalFromEnv err))
                   | None => (fst (unmarshalConfigStruct w c1),
                              validateRequiredFields (fst (unmarshalConfigStruct w c1)))
                   end) by reflexivity.
  destruct (unmarshalConfigStruct_fields w c1) as (_ & Henv & Hdebug & Hsettings).
  pose proof (unmarshalConfigStruct_error w c1) as Herr.
  destruct (AllSettings_fresh_env w prefix) as (Te & Td & Ts).
  cbv zeta in Henv, Hdebug, Hsettings, Te, Td, Ts.
  change (v c1) with (afterEnv prefix viper.New) in Henv, Hdebug, Hsettings, Herr.
  rewrite Te in Henv. rewrite Td in Hdebug. specialize (Hsettings Ts).
  unfold reflectValueOf, decodeField in Herr.
  cbn [fmap list_fmap concat fst snd String.eqb] in Herr.
  change (mapstructure.fieldKey fieldEnvironment) with "environment" in Herr.
  change (mapstructure.fieldKey fieldDebug) with "debug" in Herr.
  change (mapstructure.fieldKey fieldSettings) with "settings" in Herr.
  rewrite Te, Td, Ts in Herr.
  assert (Hlayers : forall k,
            viper.Get w (afterEnv prefix viper.New) k = VNil
            \/ exists s, viper.Get w (afterEnv prefix viper.New) k = VString s /\ s <> "").
  { intros k. apply find_no_layers; rewrite afterEnv_explicit; reflexivity. }
  assert (Hvalid : forall c', Environment (configStruct c')
                     = match viper.Get w (afterEnv prefix viper.New) "environment" with
                       | VString s => s | _ => "development" end ->
                   validateRequiredFields c' = None).
  { intros c' Hc'. rewrite validateRequiredFields_Environment, Hc'.
    destruct (Hlayers "environment") as [-> | (s & -> & Hs)]; [reflexivity|].
    apply String.eqb_neq in Hs. rewrite Hs. reflexivity. }
  assert (Henv' : Environment (configStruct (fst (unmarshalConfigStruct w c1)))
                  = match viper.Get w (afterEnv prefix viper.New) "environment" with
                    | VString s => s | _ => "development" end).
  { rewrite Henv. destruct (Hlayers "environment") as [-> | (s & -> & _)]; reflexivity. }
  rewrite Hrun. clear Hrun.
  generalize dependent (unmarshalConfigStruct w c1). intros u Henv Hdebug Hsettings Herr Henv'.
  destruct (Hlayers "environment") as [He | (se & He & Hse)];
  destruct (Hlayers "debug") as [Hd | (sd & Hd & Hsd)];
    rewrite ?He, ?Hd in *; cbn in Herr, Hdebug.
  - rewrite Herr, (Hvalid _ Henv'). split; [intros s [=]|]. intros _.
    repeat split; assumption.
  - apply String.eqb_neq in Hsd. rewrite Hsd in *. cbn [viper.ToBoolE].
    destruct (ParseBool sd) as [b|] eqn:Hparse; cbn in Herr, Hdebug; rewrite Herr.
    + rewrite (Hvalid _ Henv'). split; [intros s [= <-]; congruence|]. intros _.
      repeat split; assumption.
    + split; [reflexivity|]. intros Hok. exfalso. exact (Hok sd eq_refl Hparse).
  - rewrite Herr, (Hvalid _ Henv'). split; [intros s [=]|]. intros _.
    repeat split; assumption.
  - apply String.eqb_neq in Hsd. rewrite Hsd in *. cbn [viper.ToBoolE].
    destruct (ParseBool sd) as [b|] eqn:Hparse; cbn in Herr, Hdebug; rewrite Herr.
    + rewrite (Hvalid _ Henv'). split; [intros s [= <-]; congruence|]. intros _.
      repeat split; assumption.
    + split; [reflexivity|]. intros Hok. exfalso. exact (Hok sd eq_refl Hparse).
Qed.

(** ** Keys of a config file *)






(** ** Instances *)



Lemma WithFilepath_read_failure_missing :
  snd (WithFilepath emptyWorld "config.yaml" defaultedConfig)
    = Some (ErrReadConfig "config.yaml" (FileReadError "config.yaml"))
  /\ configStruct (fst (WithFilepath emptyWorld "config.yaml" defaultedConfig))
     = configStruct defaultedConfig.
Proof.
  destruct (WithFilepath_read_failure emptyWorld "config.yaml" "yaml" defaultedConfig eq_refl)
    as (Hmissing & _ & Hkept).
  split; [apply Hmissing; reflexivity|].
  destruct Hkept as (Hprojection & _); [left; reflexivity | exact Hprojection].
Defined.



Lemma WithFilepath_empty_file_yaml :
  exists c, New [WithFilepath (worldWith ∅ []) "config.yaml"] = (Some c, None)
    /\ GetConfigStruct c = GetConfigStruct defaultedConfig
    /\ forall key, Get (worldWith ∅ []) c key = VNil.
Proof.
  apply (WithFilepath_empty_file (worldWith ∅ []) "config.yaml" "yaml" "config"); reflexivity.
Defined.




Lemma New_WithEnv_outcome_malformed_debug :
  New [WithEnv malformedDebugWorld "CONFIG"]
  = (None, Some (ErrUnmarshalFromEnv (DecodeErrors ["debug"]))).
Proof.
  destruct (New_WithEnv_outcome malformedDebugWorld "CONFIG") as [Hmalformed _].
  apply (Hmalformed "maybe"); reflexivity.
Defined.
